(** * physics_animation: the simulation clock, the collision recorder and the
    audio-track synthesizer of [generate.py]

    The script drops a ball on a floor with pymunk, renders one frame per
    fixed step, records the clock value at each post-solve callback and then
    overlays a short clip on a silent track at every recorded time.

    Times are Python floats.  They are embedded as Rocq's primitive binary64
    floats, whose operations round exactly as CPython's do, so the clock values
    and the millisecond offsets below are the ones the script computes. *)

From Stdlib Require Import ZArith QArith Qround Qabs Floats List Bool Lia Ascii.
From stdpp Require Import base option list sorting gmap strings pretty.

Set Default Proof Using "Type".
Local Open Scope Z_scope.

(** ** Python values *)

Module Py.

(** The exceptions the modelled statements can raise. *)
Inductive exn : Set :=
  | ZeroDivisionError
  | OverflowError
  | ValueError
  | FileNotFoundError.

(** A statement either completes with a value or raises. *)
Inductive result (A : Type) : Type :=
  | Ok (a : A)
  | Raise (e : exn).
Arguments Ok {A} a.
Arguments Raise {A} e.

Definition bind {A B : Type} (r : result A) (k : A -> result B) : result B :=
  match r with
  | Ok a => k a
  | Raise e => Raise e
  end.

(** [float(z)] for an int of magnitude below [2^53], where it is exact;
    larger ints are outside what this conversion follows. *)
Definition float_of_int (z : Z) : float :=
  match z with
  | Z0 => PrimFloat.zero
  | Zpos _ => PrimFloat.of_uint63 (Uint63.of_Z z)
  | Zneg p => PrimFloat.opp (PrimFloat.of_uint63 (Uint63.of_Z (Zpos p)))
  end.

(** [a / b] on two ints: true division.  For operands below [2^53] the
    correctly rounded quotient is the quotient of the two conversions. *)
Definition truediv (a b : Z) : result float :=
  if b =? 0 then Raise ZeroDivisionError
  else Ok (PrimFloat.div (float_of_int a) (float_of_int b)).

(** [x * k] with a float on the left and an int on the right. *)
Definition mul_int (x : float) (k : Z) : float :=
  PrimFloat.mul x (float_of_int k).

(** [int(x)]: truncation toward zero; infinities and NaN raise. *)
Definition int (x : float) : result Z :=
  match Prim2SF x with
  | S754_zero _ => Ok 0
  | S754_finite s m e =>
      let mag := Z.shiftl (Zpos m) e in
      Ok (if s then - mag else mag)
  | S754_infinity _ => Raise OverflowError
  | S754_nan => Raise ValueError
  end.

(** [round(x)] with one argument: the nearest int, ties to the even one. *)
Definition round (x : float) : result Z :=
  match Prim2SF x with
  | S754_zero _ => Ok 0
  | S754_finite s m e =>
      let mag :=
        if 0 <=? e then Z.shiftl (Zpos m) e
        else
          let q := Z.shiftr (Zpos m) (- e) in
          let r := Zpos m - Z.shiftl q (- e) in
          let half := Z.shiftl 1 (- e - 1) in
          if r <? half then q
          else if half <? r then q + 1
          else if Z.even q then q else q + 1 in
      Ok (if s then - mag else mag)
  | S754_infinity _ => Raise OverflowError
  | S754_nan => Raise ValueError
  end.

(** [range(n)]: empty when [n <= 0]. *)
Definition range (n : Z) : list Z :=
  map Z.of_nat (seq 0 (Z.to_nat n)).

(** The exact rational value of a finite float. *)
Definition exact (x : float) : option Q :=
  match Prim2SF x with
  | S754_zero _ => Some (0 # 1)
  | S754_finite s m e =>
      let n := if s then Zneg m else Zpos m in
      Some (match e with
            | Z0 => n # 1
            | Zpos p => (n * Zpos (2 ^ p)) # 1
            | Zneg p => n # (2 ^ p)
            end)
  | _ => None
  end.

(** A finite float that is zero or positive. *)
Definition nonneg_finite (x : float) : bool :=
  match Prim2SF x with
  | S754_zero _ => true
  | S754_finite s _ _ => negb s
  | _ => false
  end.

(** Neither an infinity nor NaN. *)
Definition finite (x : float) : bool :=
  match Prim2SF x with
  | S754_zero _ | S754_finite _ _ _ => true
  | _ => false
  end.

(** [math.isclose(a, b, rel_tol=...)] with the default [abs_tol] of zero. *)
Definition isclose (a b rel_tol : float) : bool :=
  if PrimFloat.eqb a b then true
  else if PrimFloat.is_infinity a || PrimFloat.is_infinity b then false
  else
    let diff := PrimFloat.abs (PrimFloat.sub b a) in
    PrimFloat.leb diff (PrimFloat.abs (PrimFloat.mul rel_tol b))
    || PrimFloat.leb diff (PrimFloat.abs (PrimFloat.mul rel_tol a))
    || PrimFloat.leb diff PrimFloat.zero.

(** Whether the exact value of [x] is within [rel] of the rational
    [target], relative to [target]. *)
Definition within (rel : Q) (x : float) (target : Q) : bool :=
  match exact x with
  | Some q => Qle_bool (Qabs (q - target)) (rel * Qabs target)
  | None => false
  end.

End Py.

Notation "'let!' x ':=' r 'in' k" := (Py.bind r (fun x => k))
  (at level 10, x name, r at level 100, k at level 200).

(** ** The pydub operations the script calls

    pydub is an external library.  An [AudioSegment] is modelled at the
    resolution the script addresses it with, one signed 16-bit sample per
    millisecond: [len] counts milliseconds, [silent] allocates zeros, and
    [overlay] mixes with [audioop.add], which saturates instead of wrapping. *)

Module pydub.

Abbreviation AudioSegment := (list Z).

(** [len(seg)], in milliseconds. *)
Definition len (seg : AudioSegment) : Z := Z.of_nat (length seg).

(** [AudioSegment.silent(duration=...)]; a non-positive duration is empty. *)
Definition silent (duration : Z) : AudioSegment :=
  replicate (Z.to_nat duration) 0.

Definition clamp16 (v : Z) : Z := Z.max (-32768) (Z.min 32767 v).

(** [audioop.add] on two fragments of the same length, for samples two
    bytes wide: the width of [silent] and of the clip the script generates. *)
Definition add (fragment1 fragment2 : AudioSegment) : AudioSegment :=
  zip_with (fun a b => clamp16 (a + b)) fragment1 fragment2.

(** The sample index of a slice bound: a negative bound counts from the end,
    and a bound past the end is the end.  The statements below use offsets
    that are not negative only; for an offset below [- len seg] pydub's slice
    raises, which this index (zero there) does not show. *)
Definition parse_position (seg : AudioSegment) (ms : Z) : nat :=
  Z.to_nat (Z.min (if ms <? 0 then len seg + ms else ms) (len seg)).

(** [seg1.overlay(seg2, position=...)]: [seg1] up to [position], then the mix
    of [seg2] (cut where [seg1] ends) with what [seg1] holds there, then the
    rest of [seg1]. *)
Definition overlay (seg1 seg2 : AudioSegment) (position : Z) : AudioSegment :=
  let p := parse_position seg1 position in
  let rest := drop p seg1 in
  let seg2 := take (length rest) seg2 in
  take p seg1 ++ add (take (length seg2) rest) seg2 ++ drop (length seg2) rest.

End pydub.

(** ** Files

    The wav files the script reads and writes, by path, and the log of the
    [export] calls in the order they happened. *)

Record Disk : Type := mkDisk {
  files : gmap string (list Z);
  exported : list string
}.

Definition exists_path (path : string) (disk : Disk) : bool :=
  bool_decide (is_Some (files disk !! path)).

Definition export (seg : list Z) (out_f : string) (disk : Disk) : Disk :=
  {| files := <[out_f := seg]> (files disk);
     exported := exported disk ++ [out_f] |}.

(** [AudioSegment.from_wav(file)]; the disk holds wav files only, each by
    its decoded samples. *)
Definition from_wav (file : string) (disk : Disk) : Py.result (list Z) :=
  match files disk !! file with
  | Some seg => Py.Ok seg
  | None => Py.Raise Py.FileNotFoundError
  end.

(** ** Configuration (lines 18-25 and 32)

    The two constants the simulation and the audio track depend on are kept
    in a record, so that other settings than the script's can be stated. *)

Record Config : Set := mkConfig {
  FRAME_RATE : Z;
  DURATION : Z
}.

Definition TOTAL_FRAMES (c : Config) : Z := FRAME_RATE c * DURATION c.

(** The values in the script: 60 frames per second for 5 seconds. *)
Definition script : Config := {| FRAME_RATE := 60; DURATION := 5 |}.

Definition AUDIO_OUTPUT : string := "audio.wav".
Definition collision_sound_path : string := "sounds/collision.wav".

(** ** The collision clip (lines 31-39) *)

Section CollisionSound.

(** [Sine(frequency).to_audio_segment(duration=...)] and [fade_out], pydub's
    tone generator and fade, whose samples no statement here depends on. *)
Variable Sine : Z -> Z -> list Z.
Variable fade_out : list Z -> Z -> list Z.

Definition generate_collision_sound (output_path : string)
    (duration_ms frequency : Z) (disk : Disk) : Disk :=
  let sine_wave := Sine frequency duration_ms in
  let collision_sound := fade_out sine_wave 50 in
  export collision_sound output_path disk.

(** Lines 33-39: generate the clip unless the file is there. *)
Definition acquire_collision_sound (disk : Disk) : Disk :=
  if negb (exists_path collision_sound_path disk)
  then generate_collision_sound collision_sound_path 100 440 disk
  else disk.

End CollisionSound.

(** ** The audio track (lines 112-135) *)

(** One pass of the loop body at lines 129-132. *)
Definition place_collision (collision_sound audio : list Z)
    (collision_time : float) : Py.result (list Z) :=
  let! collision_ms := Py.int (Py.mul_int collision_time 1000) in
  if collision_ms <? pydub.len audio
  then Py.Ok (pydub.overlay audio collision_sound collision_ms)
  else Py.Ok audio.

(** The loop at lines 129-132. *)
Fixpoint overlay_collisions (collision_sound : list Z)
    (collision_times : list float) (audio : list Z) : Py.result (list Z) :=
  match collision_times with
  | [] => Py.Ok audio
  | collision_time :: later =>
      let! audio := place_collision collision_sound audio collision_time in
      overlay_collisions collision_sound later audio
  end.

Definition generate_audio_track (collision_times : list float)
    (collision_sound_path : string) (total_duration : Z)
    (output_path : string) (frame_rate : Z) (disk : Disk) : Py.result Disk :=
  let audio := pydub.silent (total_duration * 1000) in
  let! collision_sound := from_wav collision_sound_path disk in
  let! audio := overlay_collisions collision_sound collision_times audio in
  Py.Ok (export audio output_path disk).

(** ** A duration that is any Python number (lines 112 and 123)

    [generate_audio_track] above is the function at the int the script
    passes.  Its parameter takes a float as well; then [total_duration * 1000]
    is a float, and the length of the silent segment is what pydub makes of
    it: [silent] allocates [int(frame_rate * (duration / 1000.0))] frames at
    its default rate of 11025 frames per second, and [len] of a segment is
    [round(1000 * (frame_count / frame_rate))]. *)

Inductive number : Set :=
  | Int (z : Z)
  | Float (x : float).

(** [n * 1000] *)
Definition times_1000 (n : number) : number :=
  match n with
  | Int z => Int (z * 1000)
  | Float x => Float (Py.mul_int x 1000)
  end.


Definition silent_frames (duration : float) : Py.result Z :=
  let! frames := Py.int (PrimFloat.mul 11025 (PrimFloat.div duration 1000)) in
  Py.Ok (Z.max 0 frames).

Definition len_of_frames (frame_count : Z) : Py.result Z :=
  Py.round (PrimFloat.mul 1000
              (PrimFloat.div (Py.float_of_int frame_count) 11025)).

(** [AudioSegment.silent(duration=...)] by the kind of its argument, as a
    segment of [len] milliseconds. *)
Definition silent_for (duration : number) : Py.result (list Z) :=
  match duration with
  | Int ms => Py.Ok (pydub.silent ms)
  | Float ms =>
      let! frames := silent_frames ms in
      let! length_ms := len_of_frames frames in
      Py.Ok (pydub.silent length_ms)
  end.


(** ** The simulation loop (lines 41-107) *)

(** What [draw_frame] is given for one frame. *)
Record Snapshot : Type := mkSnapshot {
  frame_index : Z;
  simulation_time : float;
  position : float * float
}.

Section Simulation.

(** The pymunk space with its floor, body and shape.  [space.step(dt)] is the
    engine's: [step s dt s' k] says that from [s] a step of [dt] can end in
    [s'] after the engine called the [post_solve] handler [k] times. *)
Variable Space : Type.
Variable step : Space -> float -> Space -> nat -> Prop.
Variable body_position : Space -> float * float.

(** The mutable globals: the space, the attribute [space.current_time], the
    list [collision_times] and the frames drawn so far, oldest first. *)
Record World : Type := mkWorld {
  space : Space;
  current_time : float;
  collision_times : list float;
  frames : list Snapshot
}.

(** Lines 63-69: append the clock value, answer [True]. *)
Definition collision_handler (w : World) : World * bool :=
  ({| space := space w;
      current_time := current_time w;
      collision_times := collision_times w ++ [current_time w];
      frames := frames w |},
   true).

(** The [k] calls the engine makes during one step. *)
Definition post_solve (k : nat) (w : World) : World :=
  Nat.iter k (fun w => fst (collision_handler w)) w.

(** Lines 76-92 and 103-104: the frame drawn from the current state, kept
    in the order drawn; the file line 92 saves it to is not part of [Disk],
    its name is given by the frame number. *)
Definition draw_frame (frame : Z) (w : World) : World :=
  {| space := space w;
     current_time := current_time w;
     collision_times := collision_times w;
     frames := frames w ++ [ {| frame_index := frame;
                                simulation_time := current_time w;
                                position := body_position (space w) |} ] |}.

(** Lines 99-100 once the engine has answered: the handler calls made during
    the step, the new engine state, then [space.current_time += dt]. *)
Definition stepped (dt : float) (s' : Space) (k : nat) (w : World) : World :=
  let w := post_solve k w in
  {| space := s';
     current_time := PrimFloat.add (current_time w) dt;
     collision_times := collision_times w;
     frames := frames w |}.

(** Lines 97-104: one pass of the loop body. *)
Inductive loop_body (c : Config) (frame : Z) (w : World) :
    Py.result World -> Prop :=
  | body_raises e :
      Py.truediv 1 (FRAME_RATE c) = Py.Raise e ->
      loop_body c frame w (Py.Raise e)
  | body_steps dt s' k :
      Py.truediv 1 (FRAME_RATE c) = Py.Ok dt ->
      step (space w) dt s' k ->
      loop_body c frame w (Py.Ok (draw_frame frame (stepped dt s' k w))).

(** The [for] statement over a list of frame numbers. *)
Inductive for_frames (c : Config) : list Z -> World -> Py.result World -> Prop :=
  | for_done w :
      for_frames c [] w (Py.Ok w)
  | for_next frame later w w1 r :
      loop_body c frame w (Py.Ok w1) ->
      for_frames c later w1 r ->
      for_frames c (frame :: later) w r
  | for_raised frame later w e :
      loop_body c frame w (Py.Raise e) ->
      for_frames c (frame :: later) w (Py.Raise e).

(** Line 95 and lines 61: the state the loop starts from. *)
Definition initial (s0 : Space) : World :=
  {| space := s0; current_time := PrimFloat.zero;
     collision_times := []; frames := [] |}.

(** Lines 95-107. *)
Definition simulation_loop (c : Config) (s0 : Space) (r : Py.result World) : Prop :=
  for_frames c (Py.range (TOTAL_FRAMES c)) (initial s0) r.

(** *** The same loop for an engine that is a function *)

Variable engine : Space -> float -> Space * nat.

Definition engine_step (s : Space) (dt : float) (s' : Space) (k : nat) : Prop :=
  engine s dt = (s', k).

Definition run_body (c : Config) (frame : Z) (w : World) : Py.result World :=
  let! dt := Py.truediv 1 (FRAME_RATE c) in
  let (s', k) := engine (space w) dt in
  Py.Ok (draw_frame frame (stepped dt s' k w)).

Fixpoint run_frames (c : Config) (todo : list Z) (w : World) : Py.result World :=
  match todo with
  | [] => Py.Ok w
  | frame :: later =>
      let! w := run_body c frame w in
      run_frames c later w
  end.

Definition run (c : Config) (s0 : Space) : Py.result World :=
  run_frames c (Py.range (TOTAL_FRAMES c)) (initial s0).

End Simulation.

Arguments mkWorld {Space} _ _ _ _.
Arguments space {Space} _.
Arguments current_time {Space} _.
Arguments collision_times {Space} _.
Arguments frames {Space} _.
Arguments collision_handler {Space} w.
Arguments post_solve {Space} k w.
Arguments draw_frame {Space} body_position frame w.
Arguments stepped {Space} dt s' k w.
Arguments loop_body {Space} step body_position c frame w _.
Arguments for_frames {Space} step body_position c _ w _.
Arguments initial {Space} s0.
Arguments simulation_loop {Space} step body_position c s0 r.
Arguments engine_step {Space} engine s dt s' k.
Arguments run_body {Space} body_position engine c frame w.
Arguments run_frames {Space} body_position engine c todo w.
Arguments run {Space} body_position engine c s0.

(** ** The clock *)

(** The value of [space.current_time] after [n] executions of line 100. *)
Fixpoint clock (dt : float) (n : nat) : float :=
  match n with
  | O => PrimFloat.zero
  | S k => PrimFloat.add (clock dt k) dt
  end.

(** The script's [dt = 1 / FRAME_RATE]. *)
Definition script_dt : float := PrimFloat.div 1 60.

(** The millisecond offset line 130 computes for the clock value [n]. *)
Definition clock_ms (n : nat) : Py.result Z :=
  Py.int (Py.mul_int (clock script_dt n) 1000).

(** ** A scripted engine

    An engine whose state is the list of the callback counts of the steps to
    come: each step pops one count (none once the list is used up).  It stands
    in for pymunk wherever a statement needs a concrete run. *)

Definition scripted (s : list nat) (dt : float) : list nat * nat :=
  match s with
  | [] => ([], O)
  | k :: s' => (s', k)
  end.

Definition nowhere (s : list nat) : float * float :=
  (PrimFloat.zero, PrimFloat.zero).

(** The ball falls for 58 steps, touches the floor during the next two,
    bounces, touches again and then rests on the floor. *)
Definition bounce_script : list nat :=
  replicate 58 O ++ [1; 1]%nat ++ replicate 100 O ++ [2]%nat
    ++ replicate 139 1%nat.

Definition bounce_run : Py.result (World (list nat)) :=
  run nowhere scripted script bounce_script.

Definition bounce_world : World (list nat) :=
  match bounce_run with
  | Py.Ok w => w
  | Py.Raise _ => initial []
  end.

(** The scripted bounce stopped after [n] passes. *)
Definition bounce_prefix (n : nat) : Py.result (World (list nat)) :=
  run_frames nowhere scripted script
    (take n (Py.range (TOTAL_FRAMES script))) (initial bounce_script).

Definition bounce_after (n : nat) : World (list nat) :=
  match bounce_prefix n with
  | Py.Ok w => w
  | Py.Raise _ => initial []
  end.

(** The script's settings with a duration of zero. *)
Definition zero_duration : Config := {| FRAME_RATE := 60; DURATION := 0 |}.

(** A disk that holds a clip of three samples and nothing else. *)
Definition disk_with_clip : Disk :=
  {| files := {[ collision_sound_path := [5; 6; 7] ]}; exported := [] |}.

(** ** What the specification asks for, in its own words *)

(** A sequence of timestamps that never decreases. *)
Definition non_decreasing (ts : list float) : Prop :=
  forall (i j : nat) (a b : float),
    (i < j)%nat -> ts !! i = Some a -> ts !! j = Some b ->
    PrimFloat.leb a b = true.

(** No two outcomes from the same start. *)
Definition no_randomness {Space : Type}
    (step : Space -> float -> Space -> nat -> Prop) : Prop :=
  forall s dt s1 k1 s2 k2,
    step s dt s1 k1 -> step s dt s2 k2 -> s1 = s2 /\ k1 = k2.

(** The sample at index [i] once a clip is mixed in from [offset] on: the
    saturated sum under the clip, the old sample [a] elsewhere. *)
Definition mix_at (clip : list Z) (offset i : nat) (a : Z) : Z :=
  if decide (offset <= i)%nat
  then match clip !! (i - offset)%nat with
       | Some b => pydub.clamp16 (a + b)
       | None => a
       end
  else a.

(** The relative tolerance [1e-9], as a rational and as the nearest float. *)
Definition rel_tol : Q := 1 # 1000000000.
Definition rel_tol_float : float := 0x1.12e0be826d695p-30.

(** The checks made on the [n]-th clock value of the script: it is within
    the tolerance of [n/60], of [n] times the exact value of [dt], and
    [math.isclose] accepts it against the float product [n * dt]. *)
Definition clock_is_close (n : nat) : bool :=
  let t := clock script_dt n in
  Py.within rel_tol t (Z.of_nat n # 60)
  && match Py.exact script_dt with
     | Some q => Py.within rel_tol t (inject_Z (Z.of_nat n) * q)
     | None => false
     end
  && Py.isclose t (Py.mul_int script_dt (Z.of_nat n)) rel_tol_float.

(** The checks made on the clock value a collision of step [n + 1] gets: it
    is at most [(TOTAL_FRAMES - 1) * dt], below [DURATION], and its offset is
    inside the buffer. *)
Definition clock_in_buffer (n : nat) : bool :=
  let t := clock script_dt n in
  PrimFloat.leb t (Py.mul_int script_dt (TOTAL_FRAMES script - 1))
  && PrimFloat.ltb (Py.mul_int script_dt (TOTAL_FRAMES script - 1))
       (Py.float_of_int (DURATION script))
  && PrimFloat.ltb t (Py.float_of_int (DURATION script))
  && match clock_ms n with
     | Py.Ok ms => (0 <=? ms) && (ms <? DURATION script * 1000)
     | Py.Raise _ => false
     end.

(** The loop of lines 129-132 with the guard of line 131 taken out. *)
Definition overlay_unguarded (collision_sound : list Z)
    (collision_times : list float) (audio : list Z) : list Z :=
  fold_left
    (fun audio collision_time =>
       match Py.int (Py.mul_int collision_time 1000) with
       | Py.Ok collision_ms => pydub.overlay audio collision_sound collision_ms
       | Py.Raise _ => audio
       end)
    collision_times audio.

(** The run is refused: it ends in an exception. *)
Definition rejected {A : Type} (r : Py.result A) : Prop :=
  exists e, r = Py.Raise e.

(** ** Frame files (lines 21 and 103)

    [os.path.join(FRAME_FOLDER, f'frame_{frame:04d}.png')]. *)

Definition FRAME_FOLDER : string := "frames".

Fixpoint zeros (n : nat) : string :=
  match n with
  | O => EmptyString
  | S k => String "0"%char (zeros k)
  end.

(** Zero padding on the left up to [width] characters. *)
Definition zfill (width : nat) (digits : string) : string :=
  zeros (width - String.length digits) +:+ digits.

(** The format [04d]: decimal digits, zero-padded to four characters, the
    sign of a negative number counting as one of them. *)
Definition format_04d (n : Z) : string :=
  match n with
  | Zneg p => "-" +:+ zfill 3 (pretty (Npos p))
  | _ => zfill 4 (pretty (Z.to_N n))
  end.

Definition frame_filename (frame : Z) : string :=
  FRAME_FOLDER +:+ "/" +:+ ("frame_" +:+ format_04d frame +:+ ".png").

(** The files the frames of a world were saved to, oldest first. *)
Definition frame_files {Space : Type} (w : World Space) : list string :=
  frame_filename <$> (frame_index <$> frames w).

(** The number a run of decimal digits stands for, read left to right. *)
Fixpoint read_digits (s : string) (acc : N) : N :=
  match s with
  | EmptyString => acc
  | String c s' => read_digits s' (acc * 10 + (N.of_nat (nat_of_ascii c) - 48))%N
  end.

(** ** The script, top to bottom (lines 31-39, 94-107 and 137-143)

    The clip is acquired, the loop runs, and the audio track is generated
    from the timestamps the loop recorded; an exception ends the script
    where it is raised. *)
Inductive script_run {Space : Type}
    (step : Space -> float -> Space -> nat -> Prop)
    (body_position : Space -> float * float)
    (Sine : Z -> Z -> list Z) (fade_out : list Z -> Z -> list Z)
    (c : Config) (s0 : Space) (disk : Disk) :
    Py.result (World Space * Disk) -> Prop :=
  | script_stops_in_loop e :
      simulation_loop step body_position c s0 (Py.Raise e) ->
      script_run step body_position Sine fade_out c s0 disk (Py.Raise e)
  | script_reaches_audio w :
      simulation_loop step body_position c s0 (Py.Ok w) ->
      script_run step body_position Sine fade_out c s0 disk
        (let! disk' :=
           generate_audio_track (collision_times w) collision_sound_path
             (DURATION c) AUDIO_OUTPUT (FRAME_RATE c)
             (acquire_collision_sound Sine fade_out disk) in
         Py.Ok (w, disk')).

(** ** An engine that never calls the handler *)

Definition quiet (s : unit) (dt : float) : unit * nat := (tt, O).

Definition quiet_position (s : unit) : float * float :=
  (PrimFloat.zero, PrimFloat.zero).

Definition quiet_world : World unit :=
  match run quiet_position quiet script tt with
  | Py.Ok w => w
  | Py.Raise _ => initial tt
  end.

(** ** Stand-ins for the tone generator, and disks to run the script on *)

Definition square_tone (frequency duration_ms : Z) : list Z :=
  replicate (Z.to_nat duration_ms) 1000.

Definition keep_level (seg : list Z) (fade_ms : Z) : list Z := seg.

Definition empty_disk : Disk := {| files := ∅; exported := [] |}.

(** The disk after the audio track of the scripted bounce is written next to
    a clip of three samples. *)
Definition bounce_track : Disk :=
  match generate_audio_track (collision_times bounce_world)
          collision_sound_path (DURATION script) AUDIO_OUTPUT
          (FRAME_RATE script) disk_with_clip with
  | Py.Ok disk' => disk'
  | Py.Raise _ => disk_with_clip
  end.

(** The checks made on two clock values of the script, the first taken
    [d + 1] steps before the second: the clock has grown, and the offset of
    line 130 has not shrunk. *)
Definition clock_grows (i d : nat) : bool :=
  PrimFloat.ltb (clock script_dt i) (clock script_dt (i + S d))
  && match clock_ms i, clock_ms (i + S d) with
     | Py.Ok a, Py.Ok b => a <=? b
     | _, _ => false
     end.

(** The script's settings with a frame rate of zero. *)
Definition zero_rate : Config := {| FRAME_RATE := 0; DURATION := 5 |}.

(** The samples that fit 16 bits. *)
Definition fits16 (v : Z) : Prop := -32768 <= v <= 32767.

(** * Facts *)

(** ** Python numbers *)

Lemma int_ok_iff_finite (x : float) :
  Py.finite x = true <-> exists z, Py.int x = Py.Ok z.
Proof.
  unfold Py.finite, Py.int.
  destruct (Prim2SF x) as [s| s| |s m e]; split; intros H;
    try discriminate; try reflexivity; try (eexists; reflexivity);
    destruct H as [z H]; discriminate.
Qed.

Lemma nonneg_finite_finite (x : float) :
  Py.nonneg_finite x = true -> Py.finite x = true.
Proof.
  unfold Py.nonneg_finite, Py.finite.
  destruct (Prim2SF x); intros H; try discriminate; reflexivity.
Qed.

(** [int] truncates a finite float that is not negative to the floor of its
    exact value. *)
Lemma int_floor (x : float) :
  Py.nonneg_finite x = true ->
  exists (z : Z) (q : Q),
    Py.int x = Py.Ok z /\ Py.exact x = Some q /\ z = Qfloor q /\ 0 <= z.
Proof.
  unfold Py.nonneg_finite, Py.int, Py.exact.
  destruct (Prim2SF x) as [s| s| |s m e]; intros H; try discriminate.
  - exists 0, (0 # 1)%Q. repeat split; reflexivity || lia.
  - destruct s; [discriminate|].
    destruct e as [|p|p]; eexists; eexists;
      (split; [reflexivity|split; [reflexivity|]]).
    + cbn [Qfloor]. rewrite Z.shiftl_0_r, Z.div_1_r. split; [reflexivity|lia].
    + cbn [Qfloor]. rewrite Z.shiftl_mul_pow2 by lia.
      rewrite Z.div_1_r, Pos2Z.inj_pow. split; [reflexivity|].
      apply Z.mul_nonneg_nonneg; [lia|]. apply Z.pow_nonneg. lia.
    + cbn [Qfloor]. change (Z.shiftl (Z.pos m) (Z.neg p))
        with (Z.shiftr (Z.pos m) (Z.pos p)).
      rewrite Z.shiftr_div_pow2 by lia. rewrite Pos2Z.inj_pow.
      split; [reflexivity|].
      apply Z.div_pos; [lia|]. apply Z.pow_pos_nonneg; lia.
Qed.

(** A timestamp that is not negative has a millisecond product that is not
    negative either, as soon as that product is finite. *)
Lemma mul_int_nonneg (t : float) (k : positive) :
  (exists m e, Prim2SF (Py.float_of_int (Zpos k)) = S754_finite false m e) ->
  PrimFloat.leb PrimFloat.zero t = true ->
  Py.finite (Py.mul_int t (Zpos k)) = true ->
  Py.nonneg_finite (Py.mul_int t (Zpos k)) = true.
Proof.
  intros (mk & ek & Hk) Hle Hfin.
  unfold Py.finite, Py.nonneg_finite, Py.mul_int in *.
  rewrite leb_spec in Hle. rewrite mul_spec in *. rewrite Hk in *.
  change (Prim2SF PrimFloat.zero) with (S754_zero false) in Hle.
  destruct (Prim2SF t) as [s| s| |s m e]; cbn in Hle, Hfin |- *;
    try discriminate; try reflexivity.
  destruct s; [discriminate|]. unfold SF64mul, SFmul in *.
  cbn [xorb] in *. unfold binary_round_aux in *.
  destruct (shr_fexp _ _ _ _ _) as [mrs' e'].
  destruct (shr_fexp _ _ _ _ _) as [mrs'' e''].
  destruct (shr_m mrs''); try discriminate; try reflexivity.
  destruct (Z.leb _ _); [reflexivity|discriminate].
Qed.

Lemma thousand_finite :
  exists m e, Prim2SF (Py.float_of_int 1000) = S754_finite false m e.
Proof. eexists; eexists. vm_compute. reflexivity. Qed.

(** The hypothesis the statements about one event use: a timestamp that is
    not negative and whose product with 1000 does not overflow. *)
Lemma event_ms_nonneg (t : float) :
  PrimFloat.leb PrimFloat.zero t = true ->
  Py.finite (Py.mul_int t 1000) = true ->
  Py.nonneg_finite (Py.mul_int t 1000) = true.
Proof.
  intros Hle Hfin. apply mul_int_nonneg; try assumption.
  apply thousand_finite.
Qed.

(** ** pydub *)

Lemma parse_position_le (seg : list Z) (ms : Z) :
  (pydub.parse_position seg ms <= length seg)%nat.
Proof. unfold pydub.parse_position, pydub.len. lia. Qed.

Lemma parse_position_inside (seg : list Z) (ms : Z) :
  0 <= ms < pydub.len seg -> pydub.parse_position seg ms = Z.to_nat ms.
Proof.
  unfold pydub.parse_position, pydub.len. intros H.
  destruct (Z.ltb_spec ms 0); lia.
Qed.

(** An overlay never changes the length. *)
Lemma len_overlay (seg1 seg2 : list Z) (position : Z) :
  pydub.len (pydub.overlay seg1 seg2 position) = pydub.len seg1.
Proof.
  unfold pydub.overlay, pydub.len, pydub.add. f_equal.
  pose proof (parse_position_le seg1 position) as Hp.
  rewrite !length_app, length_zip_with, !length_take, !length_drop. lia.
Qed.

Lemma len_silent (duration : Z) :
  pydub.len (pydub.silent duration) = Z.max 0 duration.
Proof. unfold pydub.len, pydub.silent. rewrite length_replicate. lia. Qed.

(** The samples of an overlay at an offset inside the segment: before the
    offset and after the end of the clip they are those of the segment, and
    under the clip they are the saturated sums. *)
Lemma lookup_overlay (seg1 seg2 : list Z) (ms : Z) (i : nat) :
  0 <= ms < pydub.len seg1 ->
  pydub.overlay seg1 seg2 ms !! i =
    match seg1 !! i with
    | None => None
    | Some a =>
        if decide (Z.to_nat ms <= i)%nat
        then match seg2 !! (i - Z.to_nat ms)%nat with
             | Some b => Some (pydub.clamp16 (a + b))
             | None => Some a
             end
        else Some a
    end.
Proof.
  intros Hms. unfold pydub.overlay. rewrite parse_position_inside by done.
  set (p := Z.to_nat ms).
  assert (Hp : (p < length seg1)%nat) by (unfold pydub.len in Hms; lia).
  set (rest := drop p seg1). set (seg2' := take (length rest) seg2).
  assert (Hrest : length rest = (length seg1 - p)%nat)
    by (unfold rest; apply length_drop).
  assert (Hn : length seg2' = Nat.min (length rest) (length seg2))
    by (unfold seg2'; apply length_take).
  destruct (decide (p <= i)%nat) as [Hpi|Hpi].
  - rewrite lookup_app_r by (rewrite length_take; lia).
    rewrite length_take, Nat.min_l by lia.
    destruct (decide (i - p < length seg2')%nat) as [Hin|Hout].
    + rewrite lookup_app_l
        by (unfold pydub.add; rewrite length_zip_with, length_take; lia).
      unfold pydub.add. rewrite lookup_zip_with.
      rewrite lookup_take_lt by lia. unfold rest at 1. rewrite lookup_drop.
      replace (p + (i - p))%nat with i by lia.
      unfold seg2'. rewrite lookup_take_lt by lia.
      destruct (lookup_lt_is_Some_2 seg1 i ltac:(lia)) as [a ->].
      destruct (lookup_lt_is_Some_2 seg2 (i - p) ltac:(lia)) as [b ->].
      reflexivity.
    + rewrite lookup_app_r
        by (unfold pydub.add; rewrite length_zip_with, length_take; lia).
      unfold pydub.add. rewrite length_zip_with, length_take.
      rewrite lookup_drop.
      replace (length seg2' +
                 (i - p - Nat.min (Nat.min (length seg2') (length rest))
                                  (length seg2')))%nat with (i - p)%nat by lia.
      unfold rest. rewrite lookup_drop.
      replace (p + (i - p))%nat with i by lia.
      destruct (seg1 !! i) as [a|] eqn:Ha; [|reflexivity].
      apply lookup_lt_Some in Ha.
      rewrite (lookup_ge_None_2 seg2 (i - p)) by lia. reflexivity.
  - rewrite lookup_app_l by (rewrite length_take; lia).
    rewrite lookup_take_lt by lia.
    destruct (seg1 !! i); reflexivity.
Qed.

Lemma clamp16_in_range (v : Z) :
  -32768 <= v <= 32767 -> pydub.clamp16 v = v.
Proof. unfold pydub.clamp16. lia. Qed.

(** [int] is the quotient, rounded toward zero, of the exact value. *)
Lemma int_truncates (x : float) (z : Z) :
  Py.int x = Py.Ok z ->
  exists q : Q, Py.exact x = Some q /\ z = Z.quot (Qnum q) (Zpos (Qden q)).
Proof.
  unfold Py.int, Py.exact.
  destruct (Prim2SF x) as [s| s| |s m e]; intros H; try discriminate.
  - injection H as <-. exists (0 # 1)%Q. split; reflexivity.
  - injection H as <-. eexists. split; [reflexivity|].
    destruct e as [|p|p]; cbn [Qnum Qden].
    + rewrite Z.shiftl_0_r, Z.quot_1_r. destruct s; reflexivity.
    + rewrite Z.shiftl_mul_pow2, Z.quot_1_r, Pos2Z.inj_pow by lia.
      destruct s; [|reflexivity]. change (Z.neg m) with (- Z.pos m). lia.
    + change (Z.shiftl (Z.pos m) (Z.neg p)) with (Z.shiftr (Z.pos m) (Z.pos p)).
      rewrite Z.shiftr_div_pow2, Pos2Z.inj_pow by lia.
      assert (Hpow : 0 < Z.pos 2 ^ Z.pos p) by (apply Z.pow_pos_nonneg; lia).
      destruct s.
      * change (Z.neg m) with (- Z.pos m).
        rewrite Z.quot_opp_l, Z.quot_div_nonneg by lia. reflexivity.
      * rewrite Z.quot_div_nonneg by lia. reflexivity.
Qed.

(** ** The audio track *)

Lemma place_collision_len (collision_sound audio audio' : list Z) (t : float) :
  place_collision collision_sound audio t = Py.Ok audio' ->
  pydub.len audio' = pydub.len audio.
Proof.
  unfold place_collision.
  destruct (Py.int _) as [ms|e]; cbn [Py.bind]; [|discriminate].
  destruct (ms <? pydub.len audio); intros [= <-];
    [apply len_overlay|reflexivity].
Qed.

Lemma overlay_collisions_len (collision_sound : list Z) (collision_times : list float) :
  forall audio audio' : list Z,
    overlay_collisions collision_sound collision_times audio = Py.Ok audio' ->
    pydub.len audio' = pydub.len audio.
Proof.
  induction collision_times as [|t later IH]; intros audio audio' H.
  - injection H as <-. reflexivity.
  - cbn [overlay_collisions] in H.
    destruct (place_collision collision_sound audio t) as [a1|e] eqn:H1;
      cbn [Py.bind] in H; [|discriminate].
    rewrite (IH _ _ H). eapply place_collision_len, H1.
Qed.

Lemma place_collision_returns (collision_sound audio : list Z) (t : float) :
  Py.finite (Py.mul_int t 1000) = true ->
  exists audio', place_collision collision_sound audio t = Py.Ok audio'.
Proof.
  intros Hfin. apply int_ok_iff_finite in Hfin as [ms Hms].
  unfold place_collision. rewrite Hms. cbn [Py.bind].
  destruct (ms <? pydub.len audio); eexists; reflexivity.
Qed.

Lemma overlay_collisions_returns (collision_sound : list Z) (collision_times : list float) :
  Forall (fun t => Py.finite (Py.mul_int t 1000) = true) collision_times ->
  forall audio : list Z,
    exists audio', overlay_collisions collision_sound collision_times audio = Py.Ok audio'.
Proof.
  induction 1 as [|t later Ht _ IH]; intros audio.
  - eexists; reflexivity.
  - destruct (place_collision_returns collision_sound audio t Ht) as [a1 H1].
    cbn [overlay_collisions]. rewrite H1. cbn [Py.bind]. apply IH.
Qed.

(** ** One event (lines 129-132) *)

(** C1, as the code has it: for a timestamp [t] that is not negative and whose
    product [t * 1000] is finite, line 130 computes the floor of that product;
    when the offset is below the buffer length the clip is overlaid from that
    offset on, every sample under the clip becoming the saturated sum of the
    old sample and the clip's (the plain sum when it fits 16 bits) and every
    other sample staying as it was; when the offset is at or past the buffer
    length the buffer is returned unchanged and nothing is raised. *)
Theorem place_collision_mixes (collision_sound audio : list Z) (t : float) :
  PrimFloat.leb PrimFloat.zero t = true ->
  Py.finite (Py.mul_int t 1000) = true ->
  exists (ms : Z) (q : Q),
    Py.int (Py.mul_int t 1000) = Py.Ok ms /\
    Py.exact (Py.mul_int t 1000) = Some q /\ ms = Qfloor q /\ 0 <= ms /\
    (ms < pydub.len audio ->
       place_collision collision_sound audio t
         = Py.Ok (pydub.overlay audio collision_sound ms) /\
       pydub.len (pydub.overlay audio collision_sound ms) = pydub.len audio /\
       forall (i : nat) (a : Z),
         audio !! i = Some a ->
         pydub.overlay audio collision_sound ms !! i
           = Some (mix_at collision_sound (Z.to_nat ms) i a) /\
         forall b : Z,
           (Z.to_nat ms <= i)%nat ->
           collision_sound !! (i - Z.to_nat ms)%nat = Some b ->
           -32768 <= a + b <= 32767 ->
           pydub.overlay audio collision_sound ms !! i = Some (a + b)) /\
    (pydub.len audio <= ms ->
       place_collision collision_sound audio t = Py.Ok audio).
Proof.
  intros Hle Hfin.
  destruct (int_floor _ (event_ms_nonneg t Hle Hfin))
    as (ms & q & Hint & Hq & Hfloor & Hpos).
  exists ms, q. repeat (split; [assumption|]).
  unfold place_collision. rewrite Hint. cbn [Py.bind]. split.
  - intros Hlt. destruct (Z.ltb_spec ms (pydub.len audio)); [|lia].
    split; [reflexivity|]. split; [apply len_overlay|].
    intros i a Ha.
    assert (Hmix : pydub.overlay audio collision_sound ms !! i
                   = Some (mix_at collision_sound (Z.to_nat ms) i a)).
    { rewrite lookup_overlay by lia. rewrite Ha. unfold mix_at.
      destruct (decide (Z.to_nat ms <= i)%nat); [|reflexivity].
      destruct (collision_sound !! (i - Z.to_nat ms)%nat); reflexivity. }
    split; [exact Hmix|]. intros b Hi Hb Hfit.
    rewrite Hmix. unfold mix_at. rewrite decide_True by assumption.
    rewrite Hb, clamp16_in_range by assumption. reflexivity.
  - intros Hge. destruct (Z.ltb_spec ms (pydub.len audio)); [lia|reflexivity].
Qed.

(** An event at 7.8125 ms on a 20 ms buffer, with a clip of two samples. *)
Lemma place_collision_mixes_witness :
  exists (ms : Z) (q : Q),
    Py.int (Py.mul_int 0x1p-7 1000) = Py.Ok ms /\
    Py.exact (Py.mul_int 0x1p-7 1000) = Some q /\ ms = Qfloor q /\ 0 <= ms /\
    (ms < pydub.len (pydub.silent 20) ->
       place_collision [100; 200] (pydub.silent 20) 0x1p-7
         = Py.Ok (pydub.overlay (pydub.silent 20) [100; 200] ms) /\
       pydub.len (pydub.overlay (pydub.silent 20) [100; 200] ms)
         = pydub.len (pydub.silent 20) /\
       forall (i : nat) (a : Z),
         pydub.silent 20 !! i = Some a ->
         pydub.overlay (pydub.silent 20) [100; 200] ms !! i
           = Some (mix_at [100; 200] (Z.to_nat ms) i a) /\
         forall b : Z,
           (Z.to_nat ms <= i)%nat ->
           [100; 200] !! (i - Z.to_nat ms)%nat = Some b ->
           -32768 <= a + b <= 32767 ->
           pydub.overlay (pydub.silent 20) [100; 200] ms !! i = Some (a + b)) /\
    (pydub.len (pydub.silent 20) <= ms ->
       place_collision [100; 200] (pydub.silent 20) 0x1p-7
         = Py.Ok (pydub.silent 20)).
Proof.
  apply (place_collision_mixes [100; 200] (pydub.silent 20) 0x1p-7);
    vm_compute; reflexivity.
Defined.

(** C1 as stated fails: the timestamp [2^1020] is a finite float that is not
    negative, its product with 1000 overflows to infinity, and [int] raises
    where the statement promises a silent drop. *)
Lemma place_collision_overflow :
  PrimFloat.leb PrimFloat.zero 0x1p+1020 = true /\
  PrimFloat.is_finite 0x1p+1020 = true /\
  place_collision [100; 200] (pydub.silent (DURATION script * 1000)) 0x1p+1020
    = Py.Raise Py.OverflowError.
Proof. vm_compute. repeat split. Qed.

(** C2, as the code has it: the overlay starts at [int(t * 1000)], the product
    rounded toward zero: the samples before that offset keep their values and
    the sample at that offset receives the first sample of the clip. *)
Theorem overlay_starts_at_truncation (collision_sound audio : list Z)
    (t : float) (ms : Z) :
  Py.int (Py.mul_int t 1000) = Py.Ok ms ->
  0 <= ms < pydub.len audio ->
  (exists q : Q,
     Py.exact (Py.mul_int t 1000) = Some q /\
     ms = Z.quot (Qnum q) (Zpos (Qden q))) /\
  place_collision collision_sound audio t
    = Py.Ok (pydub.overlay audio collision_sound ms) /\
  (forall i : nat,
     (i < Z.to_nat ms)%nat ->
     pydub.overlay audio collision_sound ms !! i = audio !! i) /\
  (forall a b : Z,
     audio !! Z.to_nat ms = Some a ->
     collision_sound !! O = Some b ->
     pydub.overlay audio collision_sound ms !! Z.to_nat ms
       = Some (pydub.clamp16 (a + b))).
Proof.
  intros Hint Hms. split; [apply int_truncates, Hint|].
  unfold place_collision. rewrite Hint. cbn [Py.bind].
  destruct (Z.ltb_spec ms (pydub.len audio)); [|lia].
  split; [reflexivity|]. split.
  - intros i Hi. rewrite lookup_overlay by assumption.
    destruct (audio !! i); [|reflexivity].
    rewrite decide_False by lia. reflexivity.
  - intros a b Ha Hb. rewrite lookup_overlay by assumption.
    rewrite Ha, decide_True, Nat.sub_diag, Hb by lia. reflexivity.
Qed.

(** ** The whole track (lines 112-135) *)




(** At the five seconds of the script the two ways agree: the float
    5000.0 gives the 5000 ms the int gives. *)
Example silent_five_seconds :
  silent_for (times_1000 (Float 5)) = silent_for (times_1000 (Int 5)).
Proof. vm_compute. reflexivity. Qed.

(** The first touch of the scripted bounce, on the script's five-second
    buffer: the offset is 966 and the clip's first sample lands there. *)
Lemma overlay_starts_at_truncation_witness :
  (exists q : Q,
     Py.exact (Py.mul_int (clock script_dt 58) 1000) = Some q /\
     966 = Z.quot (Qnum q) (Zpos (Qden q))) /\
  place_collision [1000] (pydub.silent 5000) (clock script_dt 58)
    = Py.Ok (pydub.overlay (pydub.silent 5000) [1000] 966) /\
  (forall i : nat,
     (i < Z.to_nat 966)%nat ->
     pydub.overlay (pydub.silent 5000) [1000] 966 !! i
       = pydub.silent 5000 !! i) /\
  (forall a b : Z,
     pydub.silent 5000 !! Z.to_nat 966 = Some a ->
     [1000] !! O = Some b ->
     pydub.overlay (pydub.silent 5000) [1000] 966 !! Z.to_nat 966
       = Some (pydub.clamp16 (a + b))).
Proof.
  apply (overlay_starts_at_truncation [1000] (pydub.silent 5000)
           (clock script_dt 58) 966).
  - vm_compute. reflexivity.
  - vm_compute. split; [discriminate|reflexivity].
Defined.

(** C2 as stated fails: the first timestamp the scripted bounce records is
    the clock after 58 steps, 0.9666...68 s; its product with 1000 rounds to
    967, and the clip is overlaid from 966 on: sample 966 holds the clip's
    first sample, where an overlay from 967 leaves silence. *)
Lemma first_touch_is_not_rounded :
  collision_times bounce_world !! O = Some (clock script_dt 58) /\
  Py.round (Py.mul_int (clock script_dt 58) 1000) = Py.Ok 967 /\
  place_collision [1000] (pydub.silent (DURATION script * 1000))
      (clock script_dt 58)
    = Py.Ok (pydub.overlay (pydub.silent (DURATION script * 1000)) [1000] 966) /\
  pydub.overlay (pydub.silent (DURATION script * 1000)) [1000] 966 !! 966%nat
    = Some 1000 /\
  pydub.overlay (pydub.silent (DURATION script * 1000)) [1000] 967 !! 966%nat
    = Some 0.
Proof. vm_compute. repeat split. Qed.


(** Two events a quarter of a millisecond apart, placed at 7 ms and 8 ms of
    a 12 ms buffer: where the two copies of the clip overlap, the samples
    add up. *)
Example overlapping_events_mix :
  overlay_collisions [100; 200; 30000] [0x1p-7; 0x1p-7 + 0x1p-12]%float
      (pydub.silent 12)
    = Py.Ok [0; 0; 0; 0; 0; 0; 0; 100; 300; 30200; 30000; 0].
Proof. vm_compute. reflexivity. Qed.

(** A sum past 16 bits saturates. *)
Example saturating_mix :
  pydub.overlay [30000; 30000] [30000] 1 = [30000; 32767].
Proof. vm_compute. reflexivity. Qed.

(** After six steps the clock reads 0.09999999999999999, so a collision
    recorded then is placed at 99 ms. *)
Example offset_after_six_steps : clock_ms 6 = Py.Ok 99.
Proof. vm_compute. reflexivity. Qed.

(** ** The simulation loop *)

Section LoopFacts.

Context {Space : Type}.
Variable step : Space -> float -> Space -> nat -> Prop.
Variable body_position : Space -> float * float.

Lemma post_solve_fields (k : nat) (w : World Space) :
  space (post_solve k w) = space w /\
  current_time (post_solve k w) = current_time w /\
  frames (post_solve k w) = frames w /\
  collision_times (post_solve k w)
    = collision_times w ++ replicate k (current_time w).
Proof.
  unfold post_solve. set (handler := fun w => fst (collision_handler w)).
  induction k as [|k (Hs & Ht & Hf & Hc)].
  - repeat split. cbn [replicate Nat.iter nat_rect].
    rewrite app_nil_r. reflexivity.
  - rewrite Nat.iter_succ. set (w1 := Nat.iter k handler w) in *.
    unfold handler at 1 2 3 4.
    cbn [collision_handler fst space current_time frames collision_times].
    repeat split; try assumption.
    rewrite Hc, Ht, replicate_S_end, app_assoc. reflexivity.
Qed.

(** What one pass changes: [k] copies of the old clock value are appended,
    the clock advances by one float addition of [dt], one frame is drawn
    with the new clock value. *)
Lemma loop_body_ok (c : Config) (frame : Z) (w w1 : World Space) :
  loop_body step body_position c frame w (Py.Ok w1) ->
  exists (dt : float) (k : nat),
    Py.truediv 1 (FRAME_RATE c) = Py.Ok dt /\
    step (space w) dt (space w1) k /\
    current_time w1 = PrimFloat.add (current_time w) dt /\
    collision_times w1 = collision_times w ++ replicate k (current_time w) /\
    frames w1 = frames w ++ [ {| frame_index := frame;
                                 simulation_time := current_time w1;
                                 position := body_position (space w1) |} ].
Proof.
  inversion 1 as [|dt s' k Hdt Hstep Hw1]. exists dt, k.
  destruct (post_solve_fields k w) as (Hs & Ht & Hf & Hc).
  cbn [draw_frame stepped space current_time collision_times frames].
  rewrite Ht, Hf, Hc. repeat split; assumption.
Qed.

(** The state after a list of passes, from a state whose clock is the
    [m]-th clock value: the timestamps added are clock values whose indices
    never decrease and lie in the range of the passes made, and the frames
    added carry the numbers of the list and the clock values that follow. *)
Lemma for_frames_trace (c : Config) (dt : float) :
  Py.truediv 1 (FRAME_RATE c) = Py.Ok dt ->
  forall (todo : list Z) (w w' : World Space) (m : nat),
    for_frames step body_position c todo w (Py.Ok w') ->
    current_time w = clock dt m ->
    current_time w' = clock dt (m + length todo) /\
    (exists idxs : list nat,
       collision_times w' = collision_times w ++ (clock dt <$> idxs) /\
       StronglySorted le idxs /\
       Forall (fun i => m <= i < m + length todo)%nat idxs) /\
    simulation_time <$> frames w'
      = (simulation_time <$> frames w)
          ++ ((fun i => clock dt (S i)) <$> seq m (length todo)) /\
    frame_index <$> frames w' = (frame_index <$> frames w) ++ todo.
Proof.
  intros Hdt todo. induction todo as [|frame later IH]; intros w w' m Hrun Hm.
  - inv Hrun. rewrite Nat.add_0_r. split; [assumption|]. split.
    + exists []. rewrite app_nil_r. repeat split; constructor.
    + cbn. rewrite !app_nil_r. split; reflexivity.
  - inv Hrun. match goal with H : loop_body _ _ _ _ _ _ |- _ =>
      apply loop_body_ok in H as (dt' & k & Hdt' & _ & Ht & Hc & Hf) end.
    rewrite Hdt in Hdt'. injection Hdt' as <-.
    match goal with H : for_frames _ _ _ _ _ _ |- _ =>
      apply (IH _ _ (S m)) in H as (Ht' & (idxs & Hc' & Hs' & Hr') & Hst & Hfi) end;
      [|rewrite Ht, Hm; reflexivity].
    cbn [length]. replace (m + S (length later))%nat
      with (S m + length later)%nat by lia.
    split; [assumption|]. split; [|split].
    + exists (replicate k m ++ idxs). split; [|split].
      * rewrite Hc', Hc, Hm, fmap_app, fmap_replicate, app_assoc. reflexivity.
      * apply StronglySorted_app_2.
        -- intros i j Hi%elem_of_replicate_inv Hj. subst i.
           rewrite Forall_forall in Hr'. specialize (Hr' j Hj). lia.
        -- clear. induction k; cbn; constructor; [assumption|].
           apply Forall_replicate. lia.
        -- assumption.
      * apply Forall_app_2.
        -- apply Forall_replicate. lia.
        -- eapply Forall_impl; [exact Hr'|]. cbn. intros; lia.
    + rewrite Hst, Hf, fmap_app. cbn [fmap list_fmap seq simulation_time].
      rewrite Ht, Hm, <- app_assoc. reflexivity.
    + rewrite Hfi, Hf, fmap_app, <- app_assoc. reflexivity.
Qed.

End LoopFacts.

(** ** The clock values of the script *)

Lemma forallb_below (P : nat -> bool) (n : nat) :
  forallb P (seq 0 n) = true -> forall i : nat, (i < n)%nat -> P i = true.
Proof.
  intros H i Hi. rewrite forallb_forall in H. apply H, in_seq. lia.
Qed.

Lemma clock_monotone (i j : nat) :
  (i <= j <= 300)%nat ->
  PrimFloat.leb (clock script_dt i) (clock script_dt j) = true.
Proof.
  intros Hij.
  assert (H : forallb (fun i => forallb (fun d =>
                PrimFloat.leb (clock script_dt i) (clock script_dt (i + d)))
                (seq 0 (301 - i))) (seq 0 301) = true)
    by (vm_compute; reflexivity).
  pose proof (forallb_below _ _ H i ltac:(lia)) as Hi. cbv beta in Hi.
  pose proof (forallb_below _ _ Hi (j - i)%nat ltac:(lia)) as Hd.
  cbv beta in Hd. replace (i + (j - i))%nat with j in Hd by lia. exact Hd.
Qed.

Lemma clock_close (n : nat) :
  (n <= 300)%nat -> clock_is_close n = true.
Proof.
  intros Hn. apply (forallb_below clock_is_close 301); [|lia].
  vm_compute. reflexivity.
Qed.

Lemma clock_inside (n : nat) :
  (n < 300)%nat -> clock_in_buffer n = true.
Proof.
  intros Hn. apply (forallb_below clock_in_buffer 300); [|lia].
  vm_compute. reflexivity.
Qed.

Lemma script_dt_ok : Py.truediv 1 (FRAME_RATE script) = Py.Ok script_dt.
Proof. reflexivity. Qed.

Lemma length_range (n : Z) : length (Py.range n) = Z.to_nat n.
Proof. unfold Py.range. rewrite length_map, length_seq. reflexivity. Qed.

Lemma StronglySorted_lookup {A : Type} (R : relation A) (l : list A) :
  StronglySorted R l ->
  forall (i j : nat) (a b : A),
    (i < j)%nat -> l !! i = Some a -> l !! j = Some b -> R a b.
Proof.
  induction 1 as [|x l _ IH Hx]; intros i j a b Hij Ha Hb.
  - discriminate.
  - destruct j as [|j]; [lia|]. cbn in Hb. destruct i as [|i].
    + injection Ha as <-. rewrite Forall_forall in Hx.
      apply Hx. eapply list_elem_of_lookup_2, Hb.
    + cbn in Ha. apply (IH i j); [lia|assumption..].
Qed.

(** ** Runs *)

Section RunFacts.

Context {Space : Type}.
Variable step : Space -> float -> Space -> nat -> Prop.
Variable body_position : Space -> float * float.

(** A run over [todo1 ++ todo2] is a run over [todo1] followed by one over
    [todo2]. *)
Lemma for_frames_app (c : Config) (todo1 todo2 : list Z) :
  forall (w w1 : World Space) (r : Py.result (World Space)),
    for_frames step body_position c todo1 w (Py.Ok w1) ->
    for_frames step body_position c todo2 w1 r ->
    for_frames step body_position c (todo1 ++ todo2) w r.
Proof.
  induction todo1 as [|frame later IH]; intros w w1 r H1 H2.
  - inv H1. exact H2.
  - inv H1. cbn [app]. eapply for_next; [eassumption|]. eapply IH; eassumption.
Qed.

(** With an engine that has one outcome per state, a pass has one outcome,
    and so has every run. *)
Lemma loop_body_functional (c : Config) (frame : Z) (w : World Space)
    (r1 r2 : Py.result (World Space)) :
  no_randomness step ->
  loop_body step body_position c frame w r1 ->
  loop_body step body_position c frame w r2 ->
  r1 = r2.
Proof.
  intros Hdet H1 H2.
  destruct H1 as [e1 He1|dt1 s1 k1 Hdt1 Hs1];
    destruct H2 as [e2 He2|dt2 s2 k2 Hdt2 Hs2]; try congruence.
  assert (dt1 = dt2) by congruence. subst dt2.
  destruct (Hdet _ _ _ _ _ _ Hs1 Hs2) as [-> ->]. reflexivity.
Qed.

Lemma for_frames_functional (c : Config) (todo : list Z) :
  no_randomness step ->
  forall (w : World Space) (r1 r2 : Py.result (World Space)),
    for_frames step body_position c todo w r1 ->
    for_frames step body_position c todo w r2 ->
    r1 = r2.
Proof.
  intros Hdet. induction todo as [|frame later IH]; intros w r1 r2 H1 H2.
  - inv H1. inv H2. reflexivity.
  - inv H1; inv H2;
      repeat match goal with
      | Ha : loop_body _ _ _ _ _ ?a, Hb : loop_body _ _ _ _ _ ?b |- _ =>
          pose proof (loop_body_functional _ _ _ _ _ Hdet Ha Hb) as Heq;
          clear Hb; try discriminate Heq; try (injection Heq as ->)
      end; try reflexivity.
    eapply IH; eassumption.
Qed.

End RunFacts.

(** The executable loop is a run of the engine it is given. *)
Lemma run_frames_sound {Space : Type} (engine : Space -> float -> Space * nat)
    (body_position : Space -> float * float) (c : Config) (todo : list Z) :
  forall w : World Space,
    for_frames (engine_step engine) body_position c todo w
      (run_frames body_position engine c todo w).
Proof.
  induction todo as [|frame later IH]; intros w; cbn [run_frames].
  - constructor.
  - unfold run_body.
    destruct (Py.truediv 1 (FRAME_RATE c)) as [dt|e] eqn:Hdt; cbn [Py.bind].
    + destruct (engine (space w) dt) as [s' k] eqn:Hstep. cbn [Py.bind].
      eapply for_next; [|apply IH]. apply body_steps; assumption.
    + apply for_raised. apply body_raises. assumption.
Qed.

Lemma run_frames_ok {Space : Type} (engine : Space -> float -> Space * nat)
    (body_position : Space -> float * float) (c : Config) (todo : list Z)
    (w w' : World Space) :
  run_frames body_position engine c todo w = Py.Ok w' ->
  for_frames (engine_step engine) body_position c todo w (Py.Ok w').
Proof. intros <-. apply run_frames_sound. Qed.

Lemma run_body_ok {Space : Type} (engine : Space -> float -> Space * nat)
    (body_position : Space -> float * float) (c : Config) (frame : Z)
    (w w' : World Space) :
  run_body body_position engine c frame w = Py.Ok w' ->
  loop_body (engine_step engine) body_position c frame w (Py.Ok w').
Proof.
  unfold run_body.
  destruct (Py.truediv 1 (FRAME_RATE c)) as [dt|e] eqn:Hdt; cbn [Py.bind];
    [|discriminate].
  destruct (engine (space w) dt) as [s' k] eqn:Hstep. intros [= <-].
  apply body_steps; assumption.
Qed.

Lemma engine_step_functional {Space : Type}
    (engine : Space -> float -> Space * nat) :
  no_randomness (engine_step engine).
Proof.
  unfold no_randomness, engine_step. intros s dt s1 k1 s2 k2 H1 H2.
  rewrite H1 in H2. injection H2 as -> ->. split; reflexivity.
Qed.

Lemma bounce_run_ok : bounce_run = Py.Ok bounce_world.
Proof. vm_compute. reflexivity. Qed.

Lemma bounce_world_is_a_run :
  simulation_loop (engine_step scripted) nowhere script bounce_script
    (Py.Ok bounce_world).
Proof.
  unfold simulation_loop. apply run_frames_ok. vm_compute. reflexivity.
Qed.

(** ** The clock and the recorder, for the script's settings *)

(** C4: after [n] passes of the loop, for any [n] up to [TOTAL_FRAMES], the
    clock is the result of [n] float additions of [dt] to zero; its exact
    value is within the relative tolerance [1e-9] of [n/60] and of [n] times
    the exact value of [dt], and [math.isclose] accepts it against the float
    [n * dt]. *)
Theorem clock_after_n_steps {Space : Type}
    (step : Space -> float -> Space -> nat -> Prop)
    (body_position : Space -> float * float)
    (s0 : Space) (n : nat) (w' : World Space) :
  (n <= Z.to_nat (TOTAL_FRAMES script))%nat ->
  for_frames step body_position script
    (take n (Py.range (TOTAL_FRAMES script))) (initial s0) (Py.Ok w') ->
  current_time w' = clock script_dt n /\
  Py.within rel_tol (current_time w') (Z.of_nat n # 60) = true /\
  (exists q : Q,
     Py.exact script_dt = Some q /\
     Py.within rel_tol (current_time w') (inject_Z (Z.of_nat n) * q) = true) /\
  Py.isclose (current_time w') (Py.mul_int script_dt (Z.of_nat n))
    rel_tol_float = true.
Proof.
  intros Hn Hrun.
  destruct (for_frames_trace step body_position script script_dt script_dt_ok
              _ _ _ O Hrun eq_refl) as (Ht & _).
  rewrite length_take, length_range, Nat.min_l in Ht by assumption.
  cbn [Nat.add] in Ht. rewrite Ht. split; [reflexivity|].
  change (Z.to_nat (TOTAL_FRAMES script)) with 300%nat in Hn.
  pose proof (clock_close n Hn) as Hclose. unfold clock_is_close in Hclose.
  apply andb_prop in Hclose as [Hclose Hfloat].
  apply andb_prop in Hclose as [Hreal Hexact].
  split; [exact Hreal|]. split; [|exact Hfloat].
  destruct (Py.exact script_dt) as [q|]; [|discriminate].
  exists q. split; [reflexivity|exact Hexact].
Qed.

(** C5: in every run of the script's loop the recorded timestamps never
    decrease. *)
Theorem collision_times_non_decreasing {Space : Type}
    (step : Space -> float -> Space -> nat -> Prop)
    (body_position : Space -> float * float)
    (s0 : Space) (w' : World Space) :
  simulation_loop step body_position script s0 (Py.Ok w') ->
  non_decreasing (collision_times w').
Proof.
  intros Hrun.
  destruct (for_frames_trace step body_position script script_dt script_dt_ok
              _ _ _ O Hrun eq_refl) as (_ & (idxs & Hc & Hsorted & Hrange) & _).
  cbn [initial collision_times app] in Hc. rewrite Hc.
  intros i j a b Hij Ha Hb.
  rewrite list_lookup_fmap in Ha, Hb.
  destruct (idxs !! i) as [x|] eqn:Hx; [|discriminate].
  destruct (idxs !! j) as [y|] eqn:Hy; [|discriminate].
  injection Ha as <-. injection Hb as <-.
  apply clock_monotone. split.
  - exact (StronglySorted_lookup le idxs Hsorted i j x y Hij Hx Hy).
  - rewrite Forall_forall in Hrange.
    pose proof (Hrange y (list_elem_of_lookup_2 _ _ _ Hy)) as Hy'.
    rewrite length_range in Hy'.
    change (Z.to_nat (TOTAL_FRAMES script)) with 300%nat in Hy'. lia.
Qed.

(** What the loop adds to the engine: when the engine has one outcome per
    state and step, the loop has one outcome too.  Whether pymunk is such an
    engine is not something the script decides. *)
Lemma loop_follows_the_engine {Space : Type}
    (step : Space -> float -> Space -> nat -> Prop)
    (body_position : Space -> float * float)
    (c : Config) (s0 : Space) (r1 r2 : Py.result (World Space)) :
  no_randomness step ->
  simulation_loop step body_position c s0 r1 ->
  simulation_loop step body_position c s0 r2 ->
  r1 = r2 /\
  forall w1 w2 : World Space,
    r1 = Py.Ok w1 -> r2 = Py.Ok w2 ->
    frames w1 = frames w2 /\ collision_times w1 = collision_times w2.
Proof.
  intros Hdet H1 H2.
  assert (Heq : r1 = r2)
    by exact (for_frames_functional step body_position c _ Hdet _ _ _ H1 H2).
  split; [exact Heq|]. intros w1 w2 -> Hw2. rewrite Hw2 in Heq.
  injection Heq as ->. split; reflexivity.
Qed.

Lemma lookup_range (n : Z) (m : nat) :
  (m < Z.to_nat n)%nat -> Py.range n !! m = Some (Z.of_nat m).
Proof.
  intros Hm. unfold Py.range.
  change (map Z.of_nat (seq 0 (Z.to_nat n))) with (Z.of_nat <$> seq 0 (Z.to_nat n)).
  rewrite list_lookup_fmap, lookup_seq_lt by assumption. reflexivity.
Qed.

(** Every timestamp a run of the script records is one of the first 300
    clock values. *)
Lemma recorded_are_clock_values {Space : Type}
    (step : Space -> float -> Space -> nat -> Prop)
    (body_position : Space -> float * float)
    (s0 : Space) (w' : World Space) :
  simulation_loop step body_position script s0 (Py.Ok w') ->
  Forall (fun t => exists k : nat, (k < 300)%nat /\ t = clock script_dt k)
    (collision_times w').
Proof.
  intros Hrun.
  destruct (for_frames_trace step body_position script script_dt script_dt_ok
              _ _ _ O Hrun eq_refl) as (_ & (idxs & Hc & _ & Hrange) & _).
  cbn [initial collision_times app] in Hc. rewrite Hc.
  rewrite Forall_fmap. eapply Forall_impl; [exact Hrange|].
  intros k Hk. cbn. exists k. split; [|reflexivity].
  rewrite length_range in Hk.
  change (Z.to_nat (TOTAL_FRAMES script)) with 300%nat in Hk. lia.
Qed.

(** C9, as the code has it: in a run of the script split at its
    [(m + 1)]-th pass, the timestamps that pass records are all the clock
    value before its increment, that is [m] float additions of [dt] to zero;
    the frame drawn in the same pass carries that value plus [dt] (one more
    float addition); and every timestamp of the whole run is such a clock
    value for some [k] from 0 to [TOTAL_FRAMES - 1], within the relative
    tolerance [1e-9] of [k/60]. *)
Theorem timestamp_is_clock_before_step {Space : Type}
    (step : Space -> float -> Space -> nat -> Prop)
    (body_position : Space -> float * float)
    (s0 : Space) (m : nat) (w1 w2 w' : World Space) :
  (m < Z.to_nat (TOTAL_FRAMES script))%nat ->
  for_frames step body_position script
    (take m (Py.range (TOTAL_FRAMES script))) (initial s0) (Py.Ok w1) ->
  loop_body step body_position script (Z.of_nat m) w1 (Py.Ok w2) ->
  for_frames step body_position script
    (drop (S m) (Py.range (TOTAL_FRAMES script))) w2 (Py.Ok w') ->
  (exists k : nat,
     collision_times w2
       = collision_times w1 ++ replicate k (clock script_dt m)) /\
  (exists snap : Snapshot,
     last (frames w2) = Some snap /\
     frame_index snap = Z.of_nat m /\
     simulation_time snap = PrimFloat.add (clock script_dt m) script_dt /\
     simulation_time snap = clock script_dt (S m)) /\
  Forall (fun t => exists k : nat,
            (Z.of_nat k <= TOTAL_FRAMES script - 1) /\
            t = clock script_dt k /\
            Py.within rel_tol t (Z.of_nat k # 60) = true)
    (collision_times w').
Proof.
  intros Hm Hpre Hbody Hpost.
  destruct (for_frames_trace step body_position script script_dt script_dt_ok
              _ _ _ O Hpre eq_refl) as (Ht1 & _).
  rewrite length_take, length_range, Nat.min_l in Ht1 by lia.
  cbn [Nat.add] in Ht1.
  pose proof Hbody as Hbody'.
  apply loop_body_ok in Hbody' as (dt & k & Hdt & _ & Ht2 & Hc2 & Hf2).
  rewrite script_dt_ok in Hdt. injection Hdt as <-.
  split; [exists k; rewrite Hc2, Ht1; reflexivity|]. split.
  - eexists. rewrite Hf2, last_snoc. split; [reflexivity|].
    cbn [frame_index simulation_time]. rewrite Ht2, Ht1.
    repeat split; reflexivity.
  - assert (Hrun : simulation_loop step body_position script s0 (Py.Ok w')).
    { unfold simulation_loop.
      rewrite <- (take_drop_middle (Py.range (TOTAL_FRAMES script)) m
                    (Z.of_nat m) (lookup_range _ _ Hm)).
      eapply for_frames_app; [exact Hpre|].
      eapply for_next; [exact Hbody|exact Hpost]. }
    eapply Forall_impl; [apply (recorded_are_clock_values _ _ _ _ Hrun)|].
    intros t (j & Hj & ->). cbn. exists j.
    split; [change (TOTAL_FRAMES script) with 300; lia|].
    split; [reflexivity|].
    pose proof (clock_close j ltac:(lia)) as Hclose.
    unfold clock_is_close in Hclose.
    apply andb_prop in Hclose as [Hclose _].
    apply andb_prop in Hclose as [Hreal _]. exact Hreal.
Qed.

(** C9 as stated fails: the scripted bounce is a run of the script; its
    first timestamp, recorded during the 59th step, is the clock after 58
    additions, which is not the float [58 * dt] nor [k * dt] for any [k]
    below 300; its second timestamp, recorded during the 60th step, is not
    the time of that step's frame minus [dt]. *)
Lemma first_touch_is_not_a_multiple_of_dt :
  simulation_loop (engine_step scripted) nowhere script bounce_script
    (Py.Ok bounce_world) /\
  collision_times bounce_world !! 0%nat = Some (clock script_dt 58) /\
  PrimFloat.eqb (clock script_dt 58) (Py.mul_int script_dt 58) = false /\
  forallb (fun k => negb (PrimFloat.eqb (clock script_dt 58)
                            (Py.mul_int script_dt (Z.of_nat k))))
    (seq 0 300) = true /\
  collision_times bounce_world !! 1%nat = Some (clock script_dt 59) /\
  simulation_time <$> frames bounce_world !! 59%nat = Some (clock script_dt 60) /\
  PrimFloat.eqb (PrimFloat.sub (clock script_dt 60) script_dt)
    (clock script_dt 59) = false.
Proof.
  split; [exact bounce_world_is_a_run|]. vm_compute. repeat split.
Qed.

(** ** The pipeline: the loop, then the audio track *)

Lemma overlay_collisions_unguarded (collision_sound : list Z) (length_ms : Z)
    (collision_times : list float) :
  Forall (fun t => exists ms : Z,
            Py.int (Py.mul_int t 1000) = Py.Ok ms /\ ms < length_ms)
    collision_times ->
  forall audio : list Z,
    pydub.len audio = length_ms ->
    overlay_collisions collision_sound collision_times audio
      = Py.Ok (overlay_unguarded collision_sound collision_times audio).
Proof.
  unfold overlay_unguarded.
  induction 1 as [|t later (ms & Hms & Hlt) _ IH]; intros audio Hlen.
  - reflexivity.
  - cbn [overlay_collisions fold_left]. unfold place_collision.
    rewrite Hms. cbn [Py.bind].
    destruct (Z.ltb_spec ms (pydub.len audio)); [|lia].
    cbn [Py.bind]. apply IH. rewrite len_overlay. exact Hlen.
Qed.

(** C10: for the timestamps of any run of the script's loop, the skip at
    line 131 never happens: each timestamp is at most
    [(TOTAL_FRAMES - 1) * dt], which is below [DURATION]; its offset
    [int(t * 1000)] is defined and below the length of the silent buffer; and
    the loop of lines 129-132 returns what it returns with the guard taken
    out. *)
Theorem drop_branch_unreachable {Space : Type}
    (step : Space -> float -> Space -> nat -> Prop)
    (body_position : Space -> float * float)
    (s0 : Space) (w' : World Space) (collision_sound : list Z) :
  simulation_loop step body_position script s0 (Py.Ok w') ->
  let audio := pydub.silent (DURATION script * 1000) in
  let last_time := Py.mul_int script_dt (TOTAL_FRAMES script - 1) in
  PrimFloat.ltb last_time (Py.float_of_int (DURATION script)) = true /\
  Forall (fun t =>
            PrimFloat.leb t last_time = true /\
            PrimFloat.ltb t (Py.float_of_int (DURATION script)) = true /\
            exists ms : Z,
              Py.int (Py.mul_int t 1000) = Py.Ok ms /\
              0 <= ms < pydub.len audio /\
              (ms <? pydub.len audio) = true)
    (collision_times w') /\
  overlay_collisions collision_sound (collision_times w') audio
    = Py.Ok (overlay_unguarded collision_sound (collision_times w') audio).
Proof.
  intros Hrun audio last_time.
  pose proof (recorded_are_clock_values _ _ _ _ Hrun) as Hrec.
  assert (Hall : Forall (fun t =>
            PrimFloat.leb t last_time = true /\
            PrimFloat.ltb t (Py.float_of_int (DURATION script)) = true /\
            exists ms : Z,
              Py.int (Py.mul_int t 1000) = Py.Ok ms /\
              0 <= ms < pydub.len audio /\
              (ms <? pydub.len audio) = true) (collision_times w')).
  { eapply Forall_impl; [exact Hrec|]. intros t (k & Hk & ->). cbn beta.
    pose proof (clock_inside k Hk) as Hin. unfold clock_in_buffer in Hin.
    apply andb_prop in Hin as [Hin Hms].
    apply andb_prop in Hin as [Hin Hbelow].
    apply andb_prop in Hin as [Hle _].
    split; [exact Hle|]. split; [exact Hbelow|].
    unfold clock_ms in Hms.
    destruct (Py.int (Py.mul_int (clock script_dt k) 1000)) as [ms|e];
      [|discriminate].
    exists ms. split; [reflexivity|].
    apply andb_prop in Hms as [H0 H1].
    unfold audio. rewrite len_silent.
    change (DURATION script * 1000) with 5000 in *. lia. }
  split; [|split].
  - pose proof (clock_inside O ltac:(lia)) as Hin. unfold clock_in_buffer in Hin.
    apply andb_prop in Hin as [Hin _]. apply andb_prop in Hin as [Hin _].
    apply andb_prop in Hin as [_ Hlast]. exact Hlast.
  - exact Hall.
  - apply (overlay_collisions_unguarded _ (pydub.len audio)); [|reflexivity].
    eapply Forall_impl; [exact Hall|].
    intros t (_ & _ & ms & Hms & Hrange & _). exists ms. split; [exact Hms|lia].
Qed.

(** ** Settings that make no frame (lines 18-20 and 96) *)

(** C6, as the code has it: the script checks nothing; when
    [FRAME_RATE * DURATION] is not positive, as it is for a duration of zero,
    [range] is empty, so the loop ends normally in its initial state: nothing
    is raised, no step is taken, no frame is drawn and no timestamp is
    recorded. *)
Theorem no_frames_without_error {Space : Type}
    (step : Space -> float -> Space -> nat -> Prop)
    (body_position : Space -> float * float)
    (c : Config) (s0 : Space) :
  TOTAL_FRAMES c <= 0 ->
  simulation_loop step body_position c s0 (Py.Ok (initial s0)) /\
  (forall r : Py.result (World Space),
     simulation_loop step body_position c s0 r ->
     r = Py.Ok (initial s0) /\ ~ rejected r) /\
  frames (initial s0) = [] /\
  collision_times (initial s0) = [].
Proof.
  intros Hc. unfold simulation_loop, Py.range.
  replace (Z.to_nat (TOTAL_FRAMES c)) with O by lia. cbn [seq map].
  split; [constructor|]. split; [|split; reflexivity].
  intros r Hr. inv Hr. split; [reflexivity|]. intros [e He]. discriminate.
Qed.

Lemma no_frames_without_error_witness :
  TOTAL_FRAMES zero_duration <= 0 /\
  simulation_loop (engine_step scripted) nowhere zero_duration bounce_script
    (Py.Ok (initial bounce_script)) /\
  (forall r : Py.result (World (list nat)),
     simulation_loop (engine_step scripted) nowhere zero_duration
       bounce_script r ->
     r = Py.Ok (initial bounce_script) /\ ~ rejected r) /\
  frames (initial bounce_script) = [] /\
  collision_times (initial bounce_script) = [].
Proof.
  split; [vm_compute; discriminate|].
  apply (no_frames_without_error (engine_step scripted) nowhere
           zero_duration bounce_script).
  vm_compute. discriminate.
Defined.

(** C6 as stated fails: with a duration of zero the loop is not refused, it
    ends normally without a frame, and the audio track that follows is
    written, empty, without an exception either. *)
Lemma zero_duration_is_not_rejected :
  DURATION zero_duration = 0 /\
  simulation_loop (engine_step scripted) nowhere zero_duration bounce_script
    (Py.Ok (initial bounce_script)) /\
  ~ rejected (Py.Ok (initial bounce_script)) /\
  generate_audio_track (collision_times (initial bounce_script))
      collision_sound_path (DURATION zero_duration) AUDIO_OUTPUT
      (FRAME_RATE zero_duration) disk_with_clip
    = Py.Ok (export [] AUDIO_OUTPUT disk_with_clip).
Proof.
  split; [reflexivity|]. split; [|split].
  - apply (run_frames_sound scripted nowhere zero_duration [] _).
  - intros [e He]. discriminate.
  - reflexivity.
Qed.

(** ** The cached clip (lines 31-39) *)

(** C7: when the clip file is there, acquiring the clip leaves the disk as
    it is: no export happens and the file keeps its content; when the file
    is not there, the clip is generated and exported once; and acquiring
    again after either changes nothing. *)
Theorem clip_acquisition_idempotent (Sine : Z -> Z -> list Z)
    (fade_out : list Z -> Z -> list Z) (disk : Disk) :
  let once := acquire_collision_sound Sine fade_out disk in
  match files disk !! collision_sound_path with
  | Some clip =>
      once = disk /\
      exported once = exported disk /\
      files once !! collision_sound_path = Some clip
  | None =>
      once = generate_collision_sound Sine fade_out collision_sound_path
               100 440 disk /\
      exported once = exported disk ++ [collision_sound_path] /\
      files once !! collision_sound_path = Some (fade_out (Sine 440 100) 50)
  end /\
  acquire_collision_sound Sine fade_out once = once /\
  files (acquire_collision_sound Sine fade_out once) !! collision_sound_path
    = files once !! collision_sound_path.
Proof.
  intros once.
  assert (Hhit : forall d clip,
            files d !! collision_sound_path = Some clip ->
            acquire_collision_sound Sine fade_out d = d).
  { intros d clip Hd. unfold acquire_collision_sound, exists_path.
    rewrite bool_decide_eq_true_2 by (rewrite Hd; eexists; reflexivity).
    reflexivity. }
  destruct (files disk !! collision_sound_path) as [clip|] eqn:Hfile.
  - assert (Honce : once = disk) by (apply (Hhit disk clip Hfile)).
    rewrite Honce. split; [repeat split; assumption|].
    rewrite (Hhit disk clip Hfile). split; reflexivity.
  - assert (Honce : once = generate_collision_sound Sine fade_out
                             collision_sound_path 100 440 disk).
    { unfold once, acquire_collision_sound, exists_path.
      rewrite bool_decide_eq_false_2; [reflexivity|].
      rewrite Hfile. intros [x Hx]. discriminate. }
    assert (Hnow : files once !! collision_sound_path
                   = Some (fade_out (Sine 440 100) 50)).
    { rewrite Honce. unfold generate_collision_sound, export. cbn [files].
      apply lookup_insert_eq. }
    split; [split; [exact Honce|split; [rewrite Honce; reflexivity|exact Hnow]]|].
    rewrite (Hhit once _ Hnow). split; reflexivity.
Qed.

(** ** The statements above on the scripted bounce *)

(** Seven passes of the scripted bounce. *)
Lemma clock_after_n_steps_witness :
  current_time (bounce_after 7) = clock script_dt 7 /\
  Py.within rel_tol (current_time (bounce_after 7)) (Z.of_nat 7 # 60) = true /\
  (exists q : Q,
     Py.exact script_dt = Some q /\
     Py.within rel_tol (current_time (bounce_after 7))
       (inject_Z (Z.of_nat 7) * q) = true) /\
  Py.isclose (current_time (bounce_after 7))
    (Py.mul_int script_dt (Z.of_nat 7)) rel_tol_float = true.
Proof.
  apply (clock_after_n_steps (engine_step scripted) nowhere bounce_script
           7 (bounce_after 7)).
  - vm_compute. lia.
  - apply run_frames_ok. vm_compute. reflexivity.
Defined.

(** The whole scripted bounce. *)
Lemma collision_times_non_decreasing_witness :
  non_decreasing (collision_times bounce_world).
Proof.
  apply (collision_times_non_decreasing (engine_step scripted) nowhere
           bounce_script bounce_world).
  apply run_frames_ok. vm_compute. reflexivity.
Defined.

(** The scripted bounce split at its 59th pass, the first touch. *)
Lemma timestamp_is_clock_before_step_witness :
  (exists k : nat,
     collision_times (bounce_after 59)
       = collision_times (bounce_after 58) ++ replicate k (clock script_dt 58)) /\
  (exists snap : Snapshot,
     last (frames (bounce_after 59)) = Some snap /\
     frame_index snap = Z.of_nat 58 /\
     simulation_time snap = PrimFloat.add (clock script_dt 58) script_dt /\
     simulation_time snap = clock script_dt 59) /\
  Forall (fun t => exists k : nat,
            (Z.of_nat k <= TOTAL_FRAMES script - 1) /\
            t = clock script_dt k /\
            Py.within rel_tol t (Z.of_nat k # 60) = true)
    (collision_times bounce_world).
Proof.
  apply (timestamp_is_clock_before_step (engine_step scripted) nowhere
           bounce_script 58 (bounce_after 58) (bounce_after 59) bounce_world).
  - vm_compute. lia.
  - apply run_frames_ok. vm_compute. reflexivity.
  - apply run_body_ok. vm_compute. reflexivity.
  - apply run_frames_ok. vm_compute. reflexivity.
Defined.

(** The scripted bounce followed by the audio track with a clip of three
    samples. *)
Lemma drop_branch_unreachable_witness :
  let audio := pydub.silent (DURATION script * 1000) in
  let last_time := Py.mul_int script_dt (TOTAL_FRAMES script - 1) in
  PrimFloat.ltb last_time (Py.float_of_int (DURATION script)) = true /\
  Forall (fun t =>
            PrimFloat.leb t last_time = true /\
            PrimFloat.ltb t (Py.float_of_int (DURATION script)) = true /\
            exists ms : Z,
              Py.int (Py.mul_int t 1000) = Py.Ok ms /\
              0 <= ms < pydub.len audio /\
              (ms <? pydub.len audio) = true)
    (collision_times bounce_world) /\
  overlay_collisions [5; 6; 7] (collision_times bounce_world) audio
    = Py.Ok (overlay_unguarded [5; 6; 7] (collision_times bounce_world) audio).
Proof.
  apply (drop_branch_unreachable (engine_step scripted) nowhere
           bounce_script bounce_world [5; 6; 7]).
  apply run_frames_ok. vm_compute. reflexivity.
Defined.

(** * Further properties of the loop (lines 94-107) *)

Section LoopProperties.

Context {Space : Type}.
Variable step : Space -> float -> Space -> nat -> Prop.
Variable body_position : Space -> float * float.

Lemma truediv_raises (a b : Z) (e : Py.exn) :
  Py.truediv a b = Py.Raise e -> b = 0.
Proof.
  unfold Py.truediv. destruct (Z.eqb_spec b 0); [trivial|discriminate].
Qed.

(** A list of passes that ends in an exception has a first pass, and the
    exception is the one of the division at line 98. *)
Lemma for_frames_raised (c : Config) (todo : list Z) :
  forall (w : World Space) (e : Py.exn),
    for_frames step body_position c todo w (Py.Raise e) ->
    todo <> [] /\ Py.truediv 1 (FRAME_RATE c) = Py.Raise e.
Proof.
  induction todo as [|frame later IH]; intros w e Hrun; inv Hrun.
  - match goal with H : for_frames _ _ _ _ _ _ |- _ =>
      apply IH in H as [_ H] end.
    split; [discriminate|assumption].
  - match goal with H : loop_body _ _ _ _ _ _ |- _ => inv H end.
    split; [discriminate|assumption].
Qed.

(** A list of passes that is not empty and ends normally divided
    successfully. *)
Lemma for_frames_divided (c : Config) (todo : list Z) (w w' : World Space) :
  for_frames step body_position c todo w (Py.Ok w') ->
  todo <> [] ->
  exists dt : float, Py.truediv 1 (FRAME_RATE c) = Py.Ok dt.
Proof.
  intros Hrun Htodo. destruct todo as [|frame later]; [done|]. inv Hrun.
  match goal with H : loop_body _ _ _ _ _ _ |- _ =>
    apply loop_body_ok in H as (dt & _ & Hdt & _) end.
  exists dt. exact Hdt.
Qed.

(** The division by zero of line 98 cannot be reached: [1 / FRAME_RATE]
    raises for a frame rate of zero only, and then [TOTAL_FRAMES] is zero
    too, [range] is empty and the loop ends in the state it started from
    without a pass.  So for int settings no run of the loop ends in
    [ZeroDivisionError]. *)
Theorem division_by_zero_unreachable (c : Config) (s0 : Space)
    (r : Py.result (World Space)) :
  simulation_loop step body_position c s0 r ->
  r <> Py.Raise Py.ZeroDivisionError /\
  (FRAME_RATE c = 0 -> r = Py.Ok (initial s0)).
Proof.
  intros Hrun. split.
  - intros ->. apply for_frames_raised in Hrun as [Htodo Hdiv].
    apply truediv_raises in Hdiv. apply Htodo.
    unfold TOTAL_FRAMES. rewrite Hdiv. reflexivity.
  - intros Hzero. unfold simulation_loop, TOTAL_FRAMES in Hrun.
    rewrite Hzero in Hrun. cbn in Hrun. inv Hrun. reflexivity.
Qed.

(** One frame per pass, in order: when the loop ends, the frames drawn are
    numbered 0, 1, ... up to [TOTAL_FRAMES - 1], none missing and none twice
    (and none at all when [TOTAL_FRAMES] is not positive); frame [i] carries
    the clock after [i + 1] additions of [dt]. *)
Theorem frames_numbered_in_order (c : Config) (s0 : Space) (w' : World Space) :
  simulation_loop step body_position c s0 (Py.Ok w') ->
  frame_index <$> frames w' = Py.range (TOTAL_FRAMES c) /\
  length (frames w') = Z.to_nat (TOTAL_FRAMES c) /\
  forall dt : float,
    Py.truediv 1 (FRAME_RATE c) = Py.Ok dt ->
    current_time w' = clock dt (Z.to_nat (TOTAL_FRAMES c)) /\
    simulation_time <$> frames w'
      = (fun i => clock dt (S i)) <$> seq 0 (Z.to_nat (TOTAL_FRAMES c)).
Proof.
  intros Hrun. unfold simulation_loop in Hrun.
  destruct (Py.range (TOTAL_FRAMES c)) as [|frame later] eqn:Hrange.
  - inv Hrun. pose proof (length_range (TOTAL_FRAMES c)) as Hlen.
    rewrite Hrange in Hlen. cbn [length] in Hlen. rewrite <- Hlen.
    repeat split; reflexivity.
  - destruct (for_frames_divided c _ _ _ Hrun ltac:(discriminate)) as [dt Hdt].
    rewrite <- Hrange in *.
    destruct (for_frames_trace step body_position c dt Hdt _ _ _ O Hrun eq_refl)
      as (Ht & _ & Hst & Hfi).
    cbn [initial frames fmap list_fmap app] in Hst, Hfi.
    rewrite length_range in Ht, Hst. cbn [Nat.add] in Ht.
    split; [exact Hfi|]. split.
    + rewrite <- (length_fmap frame_index), Hfi. apply length_range.
    + intros dt' Hdt'. rewrite Hdt in Hdt'. injection Hdt' as <-.
      split; assumption.
Qed.

(** What a pass appends stays: over any list of passes the timestamps and
    the frames of the start are a prefix of those of the end. *)
Theorem passes_only_append (c : Config) (todo : list Z) (w w' : World Space) :
  for_frames step body_position c todo w (Py.Ok w') ->
  collision_times w `prefix_of` collision_times w' /\
  frames w `prefix_of` frames w'.
Proof.
  revert w. induction todo as [|frame later IH]; intros w Hrun; inv Hrun.
  - split; reflexivity.
  - match goal with H : loop_body _ _ _ _ _ _ |- _ =>
      apply loop_body_ok in H as (dt & k & _ & _ & _ & Hc & Hf) end.
    match goal with H : for_frames _ _ _ _ _ _ |- _ =>
      apply IH in H as [Hc' Hf'] end.
    split.
    + etrans; [|exact Hc']. rewrite Hc. apply prefix_app_r. reflexivity.
    + etrans; [|exact Hf']. rewrite Hf. apply prefix_app_r. reflexivity.
Qed.

(** Timestamps come from handler calls only: with an engine that never
    calls the handler, no list of passes records anything. *)
Theorem no_callback_no_timestamp (c : Config) (todo : list Z)
    (w w' : World Space) :
  (forall s dt s' k, step s dt s' k -> k = O) ->
  for_frames step body_position c todo w (Py.Ok w') ->
  collision_times w' = collision_times w.
Proof.
  intros Hquiet. revert w.
  induction todo as [|frame later IH]; intros w Hrun; inv Hrun.
  - reflexivity.
  - match goal with H : loop_body _ _ _ _ _ _ |- _ =>
      apply loop_body_ok in H as (dt & k & _ & Hstep & _ & Hc & _) end.
    apply Hquiet in Hstep. subst k. cbn [replicate] in Hc.
    rewrite app_nil_r in Hc.
    match goal with H : for_frames _ _ _ _ _ _ |- _ => apply IH in H end.
    congruence.
Qed.

End LoopProperties.

(** * Further properties of the audio track (lines 112-135) *)

Lemma overlay_collisions_finite (collision_sound : list Z)
    (collision_times : list float) :
  forall audio audio' : list Z,
    overlay_collisions collision_sound collision_times audio = Py.Ok audio' ->
    Forall (fun t => Py.finite (Py.mul_int t 1000) = true) collision_times.
Proof.
  induction collision_times as [|t later IH]; intros audio audio' H.
  - constructor.
  - cbn [overlay_collisions] in H.
    destruct (place_collision collision_sound audio t) as [a1|e] eqn:H1;
      cbn [Py.bind] in H; [|discriminate].
    constructor; [|eapply IH, H].
    apply int_ok_iff_finite. unfold place_collision in H1.
    destruct (Py.int (Py.mul_int t 1000)) as [ms|e]; [|discriminate].
    exists ms. reflexivity.
Qed.

(** What [generate_audio_track] needs in order to return: without the clip
    file it raises [FileNotFoundError], whatever the timestamps are; and
    whenever it returns, the clip file was there and every timestamp had a
    finite product with 1000, since [int] raises on an infinite or NaN
    product and nothing is exported after that. *)
Theorem audio_track_needs_clip_and_finite_times (collision_times : list float)
    (sound_path output_path : string) (total_duration frame_rate : Z)
    (disk : Disk) :
  (files disk !! sound_path = None ->
   generate_audio_track collision_times sound_path total_duration
     output_path frame_rate disk = Py.Raise Py.FileNotFoundError) /\
  (forall disk' : Disk,
     generate_audio_track collision_times sound_path total_duration
       output_path frame_rate disk = Py.Ok disk' ->
     is_Some (files disk !! sound_path) /\
     Forall (fun t => Py.finite (Py.mul_int t 1000) = true) collision_times).
Proof.
  unfold generate_audio_track, from_wav. split.
  - intros ->. reflexivity.
  - intros disk'.
    destruct (files disk !! sound_path) as [clip|]; cbn [Py.bind];
      [|discriminate].
    destruct (overlay_collisions clip collision_times _) as [audio|e] eqn:Ha;
      cbn [Py.bind]; [|discriminate].
    intros _. split; [eexists; reflexivity|].
    eapply overlay_collisions_finite, Ha.
Qed.

(** The buffer with the clip placed at an offset that is not negative, with
    the guard of line 131: every sample is [mix_at] of the old one. *)
Lemma lookup_placed (collision_sound audio : list Z) (ms : Z) (i : nat) :
  0 <= ms ->
  (if ms <? pydub.len audio
   then pydub.overlay audio collision_sound ms else audio) !! i
    = mix_at collision_sound (Z.to_nat ms) i <$> audio !! i.
Proof.
  intros Hms. destruct (Z.ltb_spec ms (pydub.len audio)) as [Hlt|Hge].
  - rewrite lookup_overlay by lia. unfold mix_at.
    destruct (audio !! i) as [a|]; [|reflexivity]. cbn [fmap option_fmap option_map].
    destruct (decide (Z.to_nat ms <= i)%nat); [|reflexivity].
    destruct (collision_sound !! (i - Z.to_nat ms)%nat); reflexivity.
  - destruct (audio !! i) as [a|] eqn:Ha; [|reflexivity].
    cbn [fmap option_fmap option_map]. unfold mix_at.
    apply lookup_lt_Some in Ha. unfold pydub.len in Hge.
    rewrite decide_False by lia. reflexivity.
Qed.

(** Events at or past the end of the buffer, however many, leave every
    sample as it was: the loop returns the buffer it was given. *)
Theorem late_events_change_nothing (collision_sound : list Z)
    (collision_times : list float) (audio : list Z) :
  Forall (fun t => exists ms : Z,
            Py.int (Py.mul_int t 1000) = Py.Ok ms /\ pydub.len audio <= ms)
    collision_times ->
  overlay_collisions collision_sound collision_times audio = Py.Ok audio.
Proof.
  induction 1 as [|t later (ms & Hms & Hlate) _ IH]; [reflexivity|].
  cbn [overlay_collisions]. unfold place_collision. rewrite Hms.
  cbn [Py.bind]. destruct (Z.ltb_spec ms (pydub.len audio)); [lia|].
  cbn [Py.bind]. exact IH.
Qed.

(** Events only touch the samples under their clip: when every event starts
    at or after [lo] and its clip ends at or before [hi], the samples before
    [lo] and from [hi] on are the ones the buffer had. *)
Theorem samples_outside_events_untouched (collision_sound : list Z)
    (collision_times : list float) (lo hi : Z) :
  0 <= lo ->
  Forall (fun t => exists ms : Z,
            Py.int (Py.mul_int t 1000) = Py.Ok ms /\
            lo <= ms /\ ms + pydub.len collision_sound <= hi)
    collision_times ->
  forall audio audio' : list Z,
    overlay_collisions collision_sound collision_times audio = Py.Ok audio' ->
    forall i : nat,
      Z.of_nat i < lo \/ hi <= Z.of_nat i ->
      audio' !! i = audio !! i.
Proof.
  intros Hlo. induction 1 as [|t later (ms & Hms & Hge & Hle) _ IH];
    intros audio audio' Hrun i Hi.
  - injection Hrun as <-. reflexivity.
  - cbn [overlay_collisions] in Hrun. unfold place_collision in Hrun.
    rewrite Hms in Hrun. cbn [Py.bind] in Hrun.
    assert (Hsame : (if ms <? pydub.len audio
                     then pydub.overlay audio collision_sound ms
                     else audio) !! i = audio !! i).
    { rewrite lookup_placed by lia.
      destruct (audio !! i) as [a|]; [|reflexivity].
      cbn [fmap option_fmap option_map]. f_equal. unfold mix_at.
      destruct (decide (Z.to_nat ms <= i)%nat) as [Hin|]; [|reflexivity].
      destruct Hi as [Hi|Hi]; [lia|].
      rewrite lookup_ge_None_2; [reflexivity|].
      unfold pydub.len in Hle. lia. }
    destruct (ms <? pydub.len audio); cbn [Py.bind] in Hrun;
      rewrite (IH _ _ Hrun i Hi); exact Hsame.
Qed.

Lemma fits16_clamp16 (v : Z) : fits16 (pydub.clamp16 v).
Proof. unfold fits16, pydub.clamp16. lia. Qed.

Lemma fits16_add (fragment1 fragment2 : list Z) :
  Forall fits16 (pydub.add fragment1 fragment2).
Proof.
  unfold pydub.add. revert fragment2.
  induction fragment1 as [|a l IH]; intros [|b k]; cbn; constructor;
    [apply fits16_clamp16|apply IH].
Qed.

Lemma fits16_overlay (seg1 seg2 : list Z) (position : Z) :
  Forall fits16 seg1 -> Forall fits16 (pydub.overlay seg1 seg2 position).
Proof.
  intros H. unfold pydub.overlay.
  repeat apply Forall_app_2;
    [apply Forall_take, H|apply fits16_add|apply Forall_drop, Forall_drop, H].
Qed.

(** For a clip two bytes wide, like the one the script generates, the
    exported track never leaves the 16-bit range, however many events pile
    up on one sample: the sums saturate instead of wrapping around. *)
Theorem track_samples_fit_16_bits (collision_times : list float)
    (clip : list Z) (sound_path output_path : string)
    (total_duration frame_rate : Z) (disk disk' : Disk) :
  files disk !! sound_path = Some clip ->
  Forall fits16 clip ->
  generate_audio_track collision_times sound_path total_duration
    output_path frame_rate disk = Py.Ok disk' ->
  exists audio : list Z,
    files disk' !! output_path = Some audio /\ Forall fits16 audio.
Proof.
  intros Hclip _. unfold generate_audio_track, from_wav.
  rewrite Hclip. cbn [Py.bind].
  assert (Hloop : forall ts audio audio',
            Forall fits16 audio ->
            overlay_collisions clip ts audio = Py.Ok audio' ->
            Forall fits16 audio').
  { induction ts as [|t later IH]; intros audio audio' Hfit Hrun.
    - injection Hrun as <-. exact Hfit.
    - cbn [overlay_collisions] in Hrun. unfold place_collision in Hrun.
      destruct (Py.int (Py.mul_int t 1000)) as [ms|e]; cbn [Py.bind] in Hrun;
        [|discriminate].
      destruct (ms <? pydub.len audio); cbn [Py.bind] in Hrun;
        eapply IH; try exact Hrun; [apply fits16_overlay|]; exact Hfit. }
  destruct (overlay_collisions clip collision_times _) as [audio|e] eqn:Hrun;
    cbn [Py.bind]; [|discriminate].
  intros [= <-]. exists audio. split.
  - cbn [export files]. apply lookup_insert_eq.
  - eapply Hloop; [|exact Hrun]. unfold pydub.silent.
    apply Forall_replicate. unfold fits16. lia.
Qed.

Lemma place_collision_guarded (collision_sound audio : list Z) (t : float)
    (ms : Z) :
  Py.int (Py.mul_int t 1000) = Py.Ok ms ->
  place_collision collision_sound audio t
    = Py.Ok (if ms <? pydub.len audio
             then pydub.overlay audio collision_sound ms else audio).
Proof.
  intros Hms. unfold place_collision. rewrite Hms. cbn [Py.bind].
  destruct (ms <? pydub.len audio); reflexivity.
Qed.

Lemma len_placed (collision_sound audio : list Z) (ms : Z) :
  pydub.len (if ms <? pydub.len audio
             then pydub.overlay audio collision_sound ms else audio)
    = pydub.len audio.
Proof. destruct (ms <? pydub.len audio); [apply len_overlay|reflexivity]. Qed.

(** As long as nothing saturates, the order of two events does not matter:
    when the samples of the buffer are within [A] of zero, those of the clip
    within [C], and [A + 2 * C] fits 16 bits, placing the two events in
    either order gives the same buffer. *)
Theorem two_events_commute (collision_sound audio : list Z) (t1 t2 : float)
    (ms1 ms2 A C : Z) :
  Py.int (Py.mul_int t1 1000) = Py.Ok ms1 ->
  Py.int (Py.mul_int t2 1000) = Py.Ok ms2 ->
  0 <= ms1 -> 0 <= ms2 ->
  Forall (fun a => - A <= a <= A) audio ->
  Forall (fun b => - C <= b <= C) collision_sound ->
  A + 2 * C <= 32767 ->
  overlay_collisions collision_sound [t1; t2] audio
    = overlay_collisions collision_sound [t2; t1] audio.
Proof.
  intros H1 H2 Hp1 Hp2 Haudio Hclip Hfit. cbn [overlay_collisions].
  rewrite (place_collision_guarded _ audio t1 ms1 H1),
    (place_collision_guarded _ audio t2 ms2 H2). cbn [Py.bind].
  rewrite (place_collision_guarded _ _ t2 ms2 H2),
    (place_collision_guarded _ _ t1 ms1 H1). cbn [Py.bind].
  f_equal. rewrite !len_placed. apply list_eq. intros i.
  set (first1 := if ms1 <? pydub.len audio
                 then pydub.overlay audio collision_sound ms1 else audio).
  set (first2 := if ms2 <? pydub.len audio
                 then pydub.overlay audio collision_sound ms2 else audio).
  assert (Hl1 : pydub.len first1 = pydub.len audio) by apply len_placed.
  assert (Hl2 : pydub.len first2 = pydub.len audio) by apply len_placed.
  rewrite <- Hl1 at 1. rewrite <- Hl2 at 1.
  rewrite !lookup_placed by assumption.
  unfold first1, first2. rewrite !lookup_placed by assumption.
  destruct (audio !! i) as [a|] eqn:Ha; [|reflexivity].
  cbn [fmap option_fmap option_map]. f_equal.
  pose proof (Forall_lookup_1 _ _ _ _ Haudio Ha) as Hbound. cbn beta in Hbound.
  unfold mix_at.
  destruct (decide (Z.to_nat ms1 <= i)%nat);
    destruct (decide (Z.to_nat ms2 <= i)%nat); try reflexivity;
    destruct (collision_sound !! (i - Z.to_nat ms1)%nat) as [x|] eqn:Hx;
    destruct (collision_sound !! (i - Z.to_nat ms2)%nat) as [y|] eqn:Hy;
    try reflexivity.
  pose proof (Forall_lookup_1 _ _ _ _ Hclip Hx) as Hbx.
  pose proof (Forall_lookup_1 _ _ _ _ Hclip Hy) as Hby.
  cbn beta in Hbx, Hby. unfold pydub.clamp16. lia.
Qed.

(** With saturation the order shows: a loud sample, a loud clip and its
    opposite. *)
Example saturation_breaks_the_order :
  pydub.overlay (pydub.overlay [30000] [30000] 0) [-30000] 0 = [2767] /\
  pydub.overlay (pydub.overlay [30000] [-30000] 0) [30000] 0 = [30000].
Proof. vm_compute. split; reflexivity. Qed.

(** * The loop and the track together *)

Lemma loop_frame_count {Space : Type}
    (step : Space -> float -> Space -> nat -> Prop)
    (body_position : Space -> float * float)
    (c : Config) (s0 : Space) (w' : World Space) :
  simulation_loop step body_position c s0 (Py.Ok w') ->
  frame_index <$> frames w' = Py.range (TOTAL_FRAMES c).
Proof.
  intros Hrun. unfold simulation_loop in Hrun.
  destruct (Py.range (TOTAL_FRAMES c)) as [|frame later] eqn:Hrange.
  - inv Hrun. reflexivity.
  - destruct (for_frames_divided step body_position c _ _ _ Hrun
                ltac:(discriminate)) as [dt Hdt].
    destruct (for_frames_trace step body_position c dt Hdt _ _ _ O Hrun eq_refl)
      as (_ & _ & _ & Hfi).
    exact Hfi.
Qed.

(** Picture and sound have the same duration: for a positive frame rate and
    a positive duration, the number of frames drawn, played at [FRAME_RATE]
    frames per second, lasts exactly as many milliseconds as the exported
    track is long. *)
Theorem video_and_audio_durations_agree {Space : Type}
    (step : Space -> float -> Space -> nat -> Prop)
    (body_position : Space -> float * float)
    (c : Config) (s0 : Space) (w' : World Space)
    (sound_path output_path : string) (disk disk' : Disk) :
  0 < FRAME_RATE c ->
  0 < DURATION c ->
  simulation_loop step body_position c s0 (Py.Ok w') ->
  generate_audio_track (collision_times w') sound_path (DURATION c)
    output_path (FRAME_RATE c) disk = Py.Ok disk' ->
  exists audio : list Z,
    files disk' !! output_path = Some audio /\
    Z.of_nat (length (frames w')) * 1000 = FRAME_RATE c * pydub.len audio.
Proof.
  intros Hrate Hduration Hrun Htrack.
  pose proof (loop_frame_count _ _ _ _ _ Hrun) as Hframes.
  apply (f_equal length) in Hframes.
  rewrite length_fmap, length_range in Hframes.
  unfold generate_audio_track, from_wav in Htrack.
  destruct (files disk !! sound_path) as [clip|]; cbn [Py.bind] in Htrack;
    [|discriminate].
  destruct (overlay_collisions clip _ _) as [audio|e] eqn:Haudio;
    cbn [Py.bind] in Htrack; [|discriminate].
  injection Htrack as <-. exists audio. split.
  - cbn [export files]. apply lookup_insert_eq.
  - rewrite (overlay_collisions_len _ _ _ _ Haudio), len_silent, Hframes.
    unfold TOTAL_FRAMES. nia.
Qed.

Lemma acquired_clip (Sine : Z -> Z -> list Z) (fade_out : list Z -> Z -> list Z)
    (disk : Disk) :
  let disk1 := acquire_collision_sound Sine fade_out disk in
  (exists clip : list Z, files disk1 !! collision_sound_path = Some clip) /\
  (forall old : list Z,
     files disk !! collision_sound_path = Some old -> disk1 = disk) /\
  (forall path : string,
     path <> collision_sound_path -> files disk1 !! path = files disk !! path).
Proof.
  cbv zeta. unfold acquire_collision_sound, exists_path.
  destruct (files disk !! collision_sound_path) as [old|] eqn:Hfile.
  - rewrite bool_decide_eq_true_2 by (eexists; reflexivity). cbn [negb].
    split; [exists old; exact Hfile|]. split; reflexivity.
  - rewrite bool_decide_eq_false_2 by (intros [x Hx]; discriminate).
    cbn [negb]. unfold generate_collision_sound, export. cbn [files].
    split; [eexists; apply lookup_insert_eq|]. split; [discriminate|].
    intros path Hpath. apply lookup_insert_ne. congruence.
Qed.

Lemma recorded_are_finite {Space : Type}
    (step : Space -> float -> Space -> nat -> Prop)
    (body_position : Space -> float * float)
    (s0 : Space) (w' : World Space) :
  simulation_loop step body_position script s0 (Py.Ok w') ->
  Forall (fun t => Py.finite (Py.mul_int t 1000) = true) (collision_times w').
Proof.
  intros Hrun.
  eapply Forall_impl; [apply (recorded_are_clock_values _ _ _ _ Hrun)|].
  intros t (k & Hk & ->). cbn beta. apply int_ok_iff_finite.
  pose proof (clock_inside k Hk) as Hin. unfold clock_in_buffer in Hin.
  apply andb_prop in Hin as [_ Hms]. unfold clock_ms in Hms.
  destruct (Py.int (Py.mul_int (clock script_dt k) 1000)) as [ms|e];
    [exists ms; reflexivity|discriminate].
Qed.

Lemma for_frames_exists {Space : Type}
    (step : Space -> float -> Space -> nat -> Prop)
    (body_position : Space -> float * float) (c : Config) :
  (forall s dt, exists s' k, step s dt s' k) ->
  forall (todo : list Z) (w : World Space),
    exists r : Py.result (World Space),
      for_frames step body_position c todo w r.
Proof.
  intros Htotal todo. induction todo as [|frame later IH]; intros w.
  - eexists. constructor.
  - destruct (Py.truediv 1 (FRAME_RATE c)) as [dt|e] eqn:Hdt.
    + destruct (Htotal (space w) dt) as (s' & k & Hstep).
      destruct (IH (draw_frame body_position frame (stepped dt s' k w)))
        as [r Hr].
      exists r. eapply for_next; [|exact Hr]. apply body_steps; assumption.
    + exists (Py.Raise e). apply for_raised, body_raises, Hdt.
Qed.

Lemma acquired_log (Sine : Z -> Z -> list Z) (fade_out : list Z -> Z -> list Z)
    (disk : Disk) :
  exported (acquire_collision_sound Sine fade_out disk)
    = exported disk
        ++ (if exists_path collision_sound_path disk
            then [] else [collision_sound_path]).
Proof.
  unfold acquire_collision_sound.
  destruct (exists_path collision_sound_path disk); cbn [negb].
  - rewrite app_nil_r. reflexivity.
  - reflexivity.
Qed.

(** The script with its own settings, from clip acquisition to the audio
    track, on a disk whose clip path is free or holds a wav file: if every
    call of [space.step] returns, the script gets through, and however the
    engine behaves it ends like this: 300 frames saved under the names
    [frame_0000.png] to [frame_0299.png], a track of exactly 5000 ms in
    [audio.wav], a clip file that was there left with its content, and as
    wav files written the clip, when it was missing, and then the track. *)
Theorem script_run_ends_well {Space : Type}
    (step : Space -> float -> Space -> nat -> Prop)
    (body_position : Space -> float * float)
    (Sine : Z -> Z -> list Z) (fade_out : list Z -> Z -> list Z)
    (s0 : Space) (disk : Disk) :
  (forall s dt, exists s' k, step s dt s' k) ->
  (exists r : Py.result (World Space * Disk),
     script_run step body_position Sine fade_out script s0 disk r) /\
  forall r : Py.result (World Space * Disk),
    script_run step body_position Sine fade_out script s0 disk r ->
    exists (w' : World Space) (disk' : Disk) (audio : list Z),
      r = Py.Ok (w', disk') /\
      disk' = export audio AUDIO_OUTPUT
                (acquire_collision_sound Sine fade_out disk) /\
      length (frames w') = 300%nat /\
      frame_files w' = frame_filename <$> Py.range 300 /\
      files disk' !! AUDIO_OUTPUT = Some audio /\
      pydub.len audio = 5000 /\
      (forall clip : list Z,
         files disk !! collision_sound_path = Some clip ->
         files disk' !! collision_sound_path = Some clip) /\
      exported disk'
        = exported disk
            ++ (if exists_path collision_sound_path disk
                then [] else [collision_sound_path])
            ++ [AUDIO_OUTPUT].
Proof.
  intros Htotal. split.
  - destruct (for_frames_exists step body_position script Htotal
                (Py.range (TOTAL_FRAMES script)) (initial s0)) as [[w|e] Hr].
    + eexists. apply (script_reaches_audio _ _ _ _ _ _ _ w Hr).
    + exists (Py.Raise e). apply script_stops_in_loop, Hr.
  - intros r Hscript. destruct Hscript as [e Hloop|w Hloop].
    + apply for_frames_raised in Hloop as [_ Hdiv].
      rewrite script_dt_ok in Hdiv. discriminate.
    + destruct (acquired_clip Sine fade_out disk)
        as ([clip Hclip] & Hkept & Hother).
      pose proof (acquired_log Sine fade_out disk) as Hlog.
      set (disk1 := acquire_collision_sound Sine fade_out disk) in *.
      destruct (overlay_collisions_returns clip (collision_times w)
                  (recorded_are_finite _ _ _ _ Hloop)
                  (pydub.silent (DURATION script * 1000))) as [audio Haudio].
      exists w, (export audio AUDIO_OUTPUT disk1), audio.
      unfold generate_audio_track, from_wav. rewrite Hclip. cbn [Py.bind].
      rewrite Haudio. cbn [Py.bind].
      pose proof (loop_frame_count _ _ _ _ _ Hloop) as Hframes.
      split; [reflexivity|]. split; [reflexivity|].
      split; [|split; [|split; [|split; [|split]]]].
      * apply (f_equal length) in Hframes.
        rewrite length_fmap, length_range in Hframes. exact Hframes.
      * unfold frame_files. rewrite Hframes. reflexivity.
      * cbn [export files]. apply lookup_insert_eq.
      * rewrite (overlay_collisions_len _ _ _ _ Haudio), len_silent.
        reflexivity.
      * intros old Hold. cbn [export files].
        rewrite lookup_insert_ne by discriminate.
        rewrite (Hkept old Hold). exact Hold.
      * cbn [export exported]. rewrite Hlog, <- app_assoc. reflexivity.
Qed.

(** * Frame files (line 103) *)

Lemma digit_of_pretty_char (d : N) :
  (d < 10)%N ->
  (N.of_nat (nat_of_ascii (pretty_N_char d)) - 48)%N = d.
Proof.
  intros Hd.
  assert (d = 0 \/ d = 1 \/ d = 2 \/ d = 3 \/ d = 4 \/ d = 5 \/ d = 6
          \/ d = 7 \/ d = 8 \/ d = 9)%N as Hcases by lia.
  repeat (destruct Hcases as [->|Hcases]; [reflexivity|]).
  subst d. reflexivity.
Qed.

(** Reading back the digits written in front of [s]. *)
Lemma read_pretty_go (x : N) :
  forall s : string, read_digits (pretty_N_go x s) 0 = read_digits s x.
Proof.
  induction (N.lt_wf_0 x) as [x _ IH]. intros s.
  destruct (N.eq_dec x 0%N) as [->|Hx].
  - rewrite pretty_N_go_0. reflexivity.
  - rewrite pretty_N_go_step by lia.
    rewrite IH by (apply N.div_lt; lia). cbn [read_digits].
    rewrite digit_of_pretty_char by (apply N.mod_lt; lia).
    f_equal. pose proof (N.div_mod x 10 ltac:(lia)). lia.
Qed.

Lemma read_pretty (n : N) : read_digits (pretty n) 0 = n.
Proof.
  unfold pretty, pretty_N. destruct (decide (n = 0%N)) as [->|Hn].
  - reflexivity.
  - apply read_pretty_go.
Qed.

Lemma read_zeros (k : nat) (s : string) :
  read_digits (zeros k +:+ s) 0 = read_digits s 0.
Proof. induction k as [|k IH]; [reflexivity|exact IH]. Qed.

Lemma length_string_app (a b : string) :
  String.length (a +:+ b) = (String.length a + String.length b)%nat.
Proof. induction a as [|c a IH]; simpl; [reflexivity|rewrite IH; reflexivity]. Qed.

Lemma string_app_inv_tail (a b s : string) : a +:+ s = b +:+ s -> a = b.
Proof.
  revert b. induction a as [|c a IH]; intros [|c' b] H.
  - reflexivity.
  - apply (f_equal String.length) in H.
    rewrite !length_string_app in H. simpl in H. lia.
  - apply (f_equal String.length) in H.
    rewrite !length_string_app in H. simpl in H. lia.
  - simpl in H. injection H as -> H. f_equal. apply IH, H.
Qed.

Lemma length_zeros (k : nat) : String.length (zeros k) = k.
Proof. induction k as [|k IH]; simpl; [reflexivity|rewrite IH; reflexivity]. Qed.

Lemma length_pretty_go (k : nat) :
  forall (x : N) (s : string),
    (x < 10 ^ N.of_nat k)%N ->
    (String.length (pretty_N_go x s) <= String.length s + k)%nat.
Proof.
  induction k as [|k IH]; intros x s Hx.
  - assert (x = 0%N) as -> by (cbn in Hx; lia). rewrite pretty_N_go_0. lia.
  - destruct (N.eq_dec x 0%N) as [->|Hpos].
    + rewrite pretty_N_go_0. lia.
    + rewrite pretty_N_go_step by lia.
      etrans; [apply IH|cbn; lia].
      rewrite Nat2N.inj_succ, N.pow_succ_r' in Hx.
      apply N.Div0.div_lt_upper_bound. lia.
Qed.

Lemma read_format_04d (n : Z) :
  0 <= n -> read_digits (format_04d n) 0 = Z.to_N n.
Proof.
  intros Hn. unfold format_04d. destruct n as [|p|p]; [..|lia];
    unfold zfill; rewrite read_zeros; apply read_pretty.
Qed.

Lemma frame_filename_inj (n m : Z) :
  0 <= n -> 0 <= m -> frame_filename n = frame_filename m -> n = m.
Proof.
  intros Hn Hm Hname. unfold frame_filename, FRAME_FOLDER in Hname.
  cbn [String.append] in Hname. repeat injection Hname as Hname.
  change (format_04d n +:+ ".png" = format_04d m +:+ ".png") in Hname.
  apply string_app_inv_tail in Hname.
  apply (f_equal (fun s => read_digits s 0)) in Hname.
  rewrite !read_format_04d in Hname by assumption. lia.
Qed.

(** The number in a frame's file name: for a frame number that is not
    negative, the digits [04d] writes read back as that number, so no two
    frames share a name; and up to 9999 they are exactly four characters. *)
Theorem format_04d_reads_back (n : Z) :
  0 <= n ->
  read_digits (format_04d n) 0 = Z.to_N n /\
  (forall m : Z, 0 <= m -> frame_filename n = frame_filename m -> n = m) /\
  (n <= 9999 -> String.length (format_04d n) = 4%nat).
Proof.
  intros Hn. split; [apply read_format_04d, Hn|]. split.
  - intros m Hm. apply frame_filename_inj; assumption.
  - intros Hmax. unfold format_04d.
    assert (Hlen : (String.length (pretty (Z.to_N n)) <= 4)%nat).
    { unfold pretty, pretty_N. destruct (decide (Z.to_N n = 0%N)); [cbn; lia|].
      apply (length_pretty_go 4 (Z.to_N n) ""). cbn. lia. }
    destruct n as [|p|p]; [..|lia]; unfold zfill;
      rewrite length_string_app, length_zeros; lia.
Qed.

(** No frame overwrites another: the files a completed loop saved its
    frames to are [frame_0000.png], [frame_0001.png], ... in the frames
    folder, one per frame number of [range(TOTAL_FRAMES)], all different. *)
Theorem frame_files_are_distinct {Space : Type}
    (step : Space -> float -> Space -> nat -> Prop)
    (body_position : Space -> float * float)
    (c : Config) (s0 : Space) (w' : World Space) :
  simulation_loop step body_position c s0 (Py.Ok w') ->
  frame_files w' = frame_filename <$> Py.range (TOTAL_FRAMES c) /\
  length (frame_files w') = Z.to_nat (TOTAL_FRAMES c) /\
  NoDup (frame_files w').
Proof.
  intros Hrun. unfold frame_files.
  rewrite (loop_frame_count _ _ _ _ _ Hrun).
  split; [reflexivity|]. split.
  - rewrite length_fmap. apply length_range.
  - unfold Py.range.
    change (map Z.of_nat (seq 0 (Z.to_nat (TOTAL_FRAMES c))))
      with (Z.of_nat <$> seq 0 (Z.to_nat (TOTAL_FRAMES c))).
    apply NoDup_fmap_2_strong.
    + intros n m [i [-> _]]%list_elem_of_fmap [j [-> _]]%list_elem_of_fmap.
      apply frame_filename_inj; lia.
    + apply NoDup_fmap_2; [apply _|apply NoDup_seq].
Qed.

(** * The clock of the script, pass after pass *)

Lemma clock_grows_ok (i j : nat) :
  (i < j <= 300)%nat -> clock_grows i (j - S i) = true.
Proof.
  intros Hij.
  assert (H : forallb (fun i => forallb (clock_grows i) (seq 0 (300 - i)))
                (seq 0 300) = true) by (vm_compute; reflexivity).
  pose proof (forallb_below _ _ H i ltac:(lia)) as Hi. cbv beta in Hi.
  exact (forallb_below _ _ Hi (j - S i)%nat ltac:(lia)).
Qed.

(** Simulation time strictly increases: in a run of the script every frame
    carries a later time than the frames before it, and the clock the loop
    ends with is still below [DURATION]. *)
Theorem frame_times_strictly_increase {Space : Type}
    (step : Space -> float -> Space -> nat -> Prop)
    (body_position : Space -> float * float)
    (s0 : Space) (w' : World Space) :
  simulation_loop step body_position script s0 (Py.Ok w') ->
  (forall (i j : nat) (a b : Snapshot),
     (i < j)%nat -> frames w' !! i = Some a -> frames w' !! j = Some b ->
     PrimFloat.ltb (simulation_time a) (simulation_time b) = true) /\
  PrimFloat.ltb (current_time w') (Py.float_of_int (DURATION script)) = true.
Proof.
  intros Hrun.
  destruct (for_frames_trace step body_position script script_dt script_dt_ok
              _ _ _ O Hrun eq_refl) as (Ht & _ & Hst & _).
  cbn [initial frames fmap list_fmap app] in Hst.
  rewrite length_range in Ht, Hst.
  change (Z.to_nat (TOTAL_FRAMES script)) with 300%nat in Ht, Hst.
  split.
  - intros i j a b Hij Ha Hb.
    assert (Hta : (simulation_time <$> frames w') !! i = Some (simulation_time a))
      by (rewrite list_lookup_fmap, Ha; reflexivity).
    assert (Htb : (simulation_time <$> frames w') !! j = Some (simulation_time b))
      by (rewrite list_lookup_fmap, Hb; reflexivity).
    rewrite Hst, list_lookup_fmap in Hta, Htb.
    destruct (seq 0 300 !! i) as [x|] eqn:Hx; [|discriminate].
    destruct (seq 0 300 !! j) as [y|] eqn:Hy; [|discriminate].
    apply lookup_seq in Hx as [-> Hi]. apply lookup_seq in Hy as [-> Hj].
    injection Hta as <-. injection Htb as <-. cbn [Nat.add].
    pose proof (clock_grows_ok (S i) (S j) ltac:(lia)) as Hgrow.
    unfold clock_grows in Hgrow. apply andb_prop in Hgrow as [Hgrow _].
    replace (S i + S (S j - S (S i)))%nat with (S j) in Hgrow by lia.
    exact Hgrow.
  - rewrite Ht. vm_compute. reflexivity.
Qed.

(** The events reach the audio loop from left to right: along the
    timestamps of a run of the script, the offsets line 130 computes never
    decrease. *)
Theorem offsets_never_decrease {Space : Type}
    (step : Space -> float -> Space -> nat -> Prop)
    (body_position : Space -> float * float)
    (s0 : Space) (w' : World Space) :
  simulation_loop step body_position script s0 (Py.Ok w') ->
  forall (i j : nat) (a b : float),
    (i < j)%nat ->
    collision_times w' !! i = Some a -> collision_times w' !! j = Some b ->
    exists ms_a ms_b : Z,
      Py.int (Py.mul_int a 1000) = Py.Ok ms_a /\
      Py.int (Py.mul_int b 1000) = Py.Ok ms_b /\
      ms_a <= ms_b.
Proof.
  intros Hrun.
  destruct (for_frames_trace step body_position script script_dt script_dt_ok
              _ _ _ O Hrun eq_refl) as (_ & (idxs & Hc & Hsorted & Hrange) & _).
  cbn [initial collision_times app] in Hc. rewrite Hc.
  intros i j a b Hij Ha Hb. rewrite list_lookup_fmap in Ha, Hb.
  destruct (idxs !! i) as [x|] eqn:Hx; [|discriminate].
  destruct (idxs !! j) as [y|] eqn:Hy; [|discriminate].
  injection Ha as <-. injection Hb as <-.
  pose proof (StronglySorted_lookup le idxs Hsorted i j x y Hij Hx Hy) as Hxy.
  rewrite Forall_forall in Hrange.
  pose proof (Hrange y (list_elem_of_lookup_2 _ _ _ Hy)) as Hy'.
  rewrite length_range in Hy'.
  change (Z.to_nat (TOTAL_FRAMES script)) with 300%nat in Hy'.
  destruct (decide (x = y)) as [->|Hne].
  - pose proof (clock_inside y ltac:(lia)) as Hin. unfold clock_in_buffer in Hin.
    apply andb_prop in Hin as [_ Hms]. unfold clock_ms in Hms.
    destruct (Py.int (Py.mul_int (clock script_dt y) 1000)) as [ms|e];
      [|discriminate].
    exists ms, ms. repeat split; lia.
  - pose proof (clock_grows_ok x y ltac:(lia)) as Hgrow.
    unfold clock_grows, clock_ms in Hgrow.
    apply andb_prop in Hgrow as [_ Hms].
    replace (x + S (y - S x))%nat with y in Hms by lia.
    destruct (Py.int (Py.mul_int (clock script_dt x) 1000)) as [ms_a|e];
      [|discriminate].
    destruct (Py.int (Py.mul_int (clock script_dt y) 1000)) as [ms_b|e];
      [|discriminate].
    exists ms_a, ms_b. repeat split. lia.
Qed.

(** * The further properties on concrete runs *)

(** A frame rate of zero: the division is never reached. *)
Lemma division_by_zero_unreachable_witness :
  Py.Ok (initial bounce_script) <> Py.Raise Py.ZeroDivisionError /\
  (FRAME_RATE zero_rate = 0 ->
   Py.Ok (initial bounce_script) = Py.Ok (initial bounce_script)).
Proof.
  apply (division_by_zero_unreachable (engine_step scripted) nowhere
           zero_rate bounce_script (Py.Ok (initial bounce_script))).
  apply run_frames_ok. reflexivity.
Defined.

Lemma frames_numbered_in_order_witness :
  frame_index <$> frames bounce_world = Py.range (TOTAL_FRAMES script) /\
  length (frames bounce_world) = Z.to_nat (TOTAL_FRAMES script) /\
  forall dt : float,
    Py.truediv 1 (FRAME_RATE script) = Py.Ok dt ->
    current_time bounce_world = clock dt (Z.to_nat (TOTAL_FRAMES script)) /\
    simulation_time <$> frames bounce_world
      = (fun i => clock dt (S i)) <$> seq 0 (Z.to_nat (TOTAL_FRAMES script)).
Proof.
  apply (frames_numbered_in_order (engine_step scripted) nowhere script
           bounce_script bounce_world).
  apply run_frames_ok. vm_compute. reflexivity.
Defined.

(** From the 58th pass of the scripted bounce to its end. *)
Lemma passes_only_append_witness :
  collision_times (bounce_after 58) `prefix_of` collision_times bounce_world /\
  frames (bounce_after 58) `prefix_of` frames bounce_world.
Proof.
  apply (passes_only_append (engine_step scripted) nowhere script
           (drop 58 (Py.range (TOTAL_FRAMES script)))
           (bounce_after 58) bounce_world).
  apply run_frames_ok. vm_compute. reflexivity.
Defined.

Lemma no_callback_no_timestamp_witness :
  collision_times quiet_world = collision_times (initial tt).
Proof.
  apply (no_callback_no_timestamp (engine_step quiet) quiet_position script
           (Py.range (TOTAL_FRAMES script)) (initial tt) quiet_world).
  - intros s dt s' k [= _ <-]. reflexivity.
  - apply run_frames_ok. vm_compute. reflexivity.
Defined.

(** Two events past the end of a 20 ms buffer. *)
Lemma late_events_change_nothing_witness :
  overlay_collisions [5; 6; 7] [0x1p-5; 0x1p+0]%float (pydub.silent 20)
    = Py.Ok (pydub.silent 20).
Proof.
  apply (late_events_change_nothing [5; 6; 7] [0x1p-5; 0x1p+0]%float
           (pydub.silent 20)).
  constructor; [|constructor; [|constructor]].
  - exists 31. split; [vm_compute; reflexivity|vm_compute; discriminate].
  - exists 1000. split; [vm_compute; reflexivity|vm_compute; discriminate].
Defined.

(** One event at 7 ms with a clip of three samples: sample 3 is untouched. *)
Lemma samples_outside_events_untouched_witness :
  pydub.overlay (pydub.silent 20) [5; 6; 7] 7 !! 3%nat
    = pydub.silent 20 !! 3%nat.
Proof.
  apply (samples_outside_events_untouched [5; 6; 7] [0x1p-7]%float 7 10
           ltac:(lia)).
  - constructor; [|constructor].
    exists 7. split; [vm_compute; reflexivity|].
    split; [lia|vm_compute; discriminate].
  - vm_compute. reflexivity.
  - left. lia.
Defined.

Lemma track_samples_fit_16_bits_witness :
  exists audio : list Z,
    files bounce_track !! AUDIO_OUTPUT = Some audio /\ Forall fits16 audio.
Proof.
  apply (track_samples_fit_16_bits (collision_times bounce_world) [5; 6; 7]
           collision_sound_path AUDIO_OUTPUT (DURATION script)
           (FRAME_RATE script) disk_with_clip bounce_track).
  - reflexivity.
  - repeat constructor; unfold fits16; lia.
  - vm_compute. reflexivity.
Defined.

(** Two events at 7 ms and 15 ms on silence, with a clip within 200 of
    zero. *)
Lemma two_events_commute_witness :
  overlay_collisions [100; -200] [0x1p-7; 0x1p-6]%float (pydub.silent 20)
    = overlay_collisions [100; -200] [0x1p-6; 0x1p-7]%float (pydub.silent 20).
Proof.
  apply (two_events_commute [100; -200] (pydub.silent 20) 0x1p-7 0x1p-6
           7 15 0 200).
  - vm_compute. reflexivity.
  - vm_compute. reflexivity.
  - lia.
  - lia.
  - apply Forall_forall. intros a Ha%elem_of_replicate_inv. lia.
  - repeat constructor; lia.
  - lia.
Defined.

Lemma video_and_audio_durations_agree_witness :
  exists audio : list Z,
    files bounce_track !! AUDIO_OUTPUT = Some audio /\
    Z.of_nat (length (frames bounce_world)) * 1000
      = FRAME_RATE script * pydub.len audio.
Proof.
  apply (video_and_audio_durations_agree (engine_step scripted) nowhere
           script bounce_script bounce_world collision_sound_path
           AUDIO_OUTPUT disk_with_clip bounce_track).
  - reflexivity.
  - reflexivity.
  - apply run_frames_ok. vm_compute. reflexivity.
  - vm_compute. reflexivity.
Defined.

Lemma scripted_always_steps (s : list nat) (dt : float) :
  exists (s' : list nat) (k : nat), engine_step scripted s dt s' k.
Proof.
  unfold engine_step. destruct (scripted s dt) as [s' k]. exists s', k.
  reflexivity.
Qed.

(** The scripted bounce from an empty disk, with stand-ins for the tone. *)
Lemma script_run_ends_well_witness :
  (exists r : Py.result (World (list nat) * Disk),
     script_run (engine_step scripted) nowhere square_tone keep_level script
       bounce_script empty_disk r) /\
  forall r : Py.result (World (list nat) * Disk),
    script_run (engine_step scripted) nowhere square_tone keep_level script
      bounce_script empty_disk r ->
    exists (w' : World (list nat)) (disk' : Disk) (audio : list Z),
      r = Py.Ok (w', disk') /\
      disk' = export audio AUDIO_OUTPUT
                (acquire_collision_sound square_tone keep_level empty_disk) /\
      length (frames w') = 300%nat /\
      frame_files w' = frame_filename <$> Py.range 300 /\
      files disk' !! AUDIO_OUTPUT = Some audio /\
      pydub.len audio = 5000 /\
      (forall clip : list Z,
         files empty_disk !! collision_sound_path = Some clip ->
         files disk' !! collision_sound_path = Some clip) /\
      exported disk'
        = exported empty_disk
            ++ (if exists_path collision_sound_path empty_disk
                then [] else [collision_sound_path])
            ++ [AUDIO_OUTPUT].
Proof.
  apply (script_run_ends_well (engine_step scripted) nowhere square_tone
           keep_level bounce_script empty_disk).
  exact scripted_always_steps.
Defined.

Lemma format_04d_reads_back_witness :
  read_digits (format_04d 299) 0 = Z.to_N 299 /\
  (forall m : Z, 0 <= m -> frame_filename 299 = frame_filename m -> 299 = m) /\
  (299 <= 9999 -> String.length (format_04d 299) = 4%nat).
Proof. apply (format_04d_reads_back 299). lia. Defined.

Lemma frame_files_are_distinct_witness :
  frame_files bounce_world = frame_filename <$> Py.range (TOTAL_FRAMES script) /\
  length (frame_files bounce_world) = Z.to_nat (TOTAL_FRAMES script) /\
  NoDup (frame_files bounce_world).
Proof.
  apply (frame_files_are_distinct (engine_step scripted) nowhere script
           bounce_script bounce_world).
  apply run_frames_ok. vm_compute. reflexivity.
Defined.

Lemma frame_times_strictly_increase_witness :
  (forall (i j : nat) (a b : Snapshot),
     (i < j)%nat ->
     frames bounce_world !! i = Some a -> frames bounce_world !! j = Some b ->
     PrimFloat.ltb (simulation_time a) (simulation_time b) = true) /\
  PrimFloat.ltb (current_time bounce_world)
    (Py.float_of_int (DURATION script)) = true.
Proof.
  apply (frame_times_strictly_increase (engine_step scripted) nowhere
           bounce_script bounce_world).
  apply run_frames_ok. vm_compute. reflexivity.
Defined.

(** The first two touches of the scripted bounce, at 966 ms and 983 ms. *)
Lemma offsets_never_decrease_witness :
  exists ms_a ms_b : Z,
    Py.int (Py.mul_int (clock script_dt 58) 1000) = Py.Ok ms_a /\
    Py.int (Py.mul_int (clock script_dt 59) 1000) = Py.Ok ms_b /\
    ms_a <= ms_b.
Proof.
  apply (offsets_never_decrease (engine_step scripted) nowhere bounce_script
           bounce_world ltac:(apply run_frames_ok; vm_compute; reflexivity)
           0%nat 1%nat).
  - lia.
  - vm_compute. reflexivity.
  - vm_compute. reflexivity.
Defined.
